(** * idle_time: selection of a working idle monitor

    A shallow embedding of [idle_time/__init__.py]: the [IdleMonitor] base
    class with its registry of subclasses, the selector [get_monitor], and
    the three backends ([WindowsIdleMonitor], [GnomeWaylandIdleMonitor],
    [X11IdleMonitor]).

    Python code runs in a state-and-exception monad. The state is the part
    of the machine the module talks to (environment variables, the session
    bus, the dynamic loader, the X server, the Windows tick counters); calls
    into [win32api], [jeepney], [ctypes] and the X libraries are answered by
    that state. *)

From Stdlib Require Import ZArith QArith Qpower Lia List Bool.
From Stdlib Require Import Floats.SpecFloat.
From stdpp Require Import base gmap strings list.

Open Scope Z_scope.

(** ** Exceptions and results *)

(** The exception classes the module raises or meets.
    [RuntimeErrorFrom msg e] is [raise RuntimeError(msg) from e], which
    keeps [e] as its [__cause__]. The last three derive from
    [BaseException] only, not from [Exception]. *)
Inductive exn : Type :=
| RuntimeError (msg : string)
| RuntimeErrorFrom (msg : string) (cause : exn)
| NotImplementedError
| TypeError (msg : string)
| OSError (msg : string)
| IndexError (msg : string)
| ZeroDivisionError (msg : string)
| OverflowError (msg : string)
| DBusErrorResponse (name : string)
| OtherException (cls msg : string)
| KeyboardInterrupt
| SystemExit (code : Z)
| GeneratorExit.

(** [isinstance(e, Exception)] *)
Definition is_Exception (e : exn) : bool :=
  match e with
  | KeyboardInterrupt | SystemExit _ | GeneratorExit => false
  | _ => true
  end.

Inductive result (A : Type) : Type :=
| Ok (a : A)
| Raise (e : exn).
Arguments Ok {A} a.
Arguments Raise {A} e.

(** A computation reads and updates a state [S] and returns or raises. The
    state reached when an exception is raised is kept: effects performed
    before a [raise] are not rolled back. *)
Definition M (S A : Type) : Type := S -> result A * S.

Definition ret {S A} (a : A) : M S A := fun s => (Ok a, s).

Definition bind {S A B} (c : M S A) (k : A -> M S B) : M S B :=
  fun s => match c s with
           | (Ok a, s') => k a s'
           | (Raise e, s') => (Raise e, s')
           end.

Definition raise {S A} (e : exn) : M S A := fun s => (Raise e, s).

(** [try: body except Exception as e: handler e]. An exception that is
    not an instance of [Exception] passes the handler by. *)
Definition try_except_Exception {S A} (body : M S A) (handler : exn -> M S A) : M S A :=
  fun s => match body s with
           | (Ok a, s') => (Ok a, s')
           | (Raise e, s') => if is_Exception e then handler e s' else (Raise e, s')
           end.

Definition gets {S A} (f : S -> A) : M S A := fun s => (Ok (f s), s).
Definition modify {S} (f : S -> S) : M S unit := fun s => (Ok tt, f s).

Declare Scope py_scope.
Delimit Scope py_scope with py.
Notation "x <- c ;; k" := (bind c (fun x => k))
  (at level 100, c at next level, right associativity) : py_scope.
Notation "c ;;; k" := (bind c (fun _ => k))
  (at level 100, right associativity) : py_scope.
Open Scope py_scope.

(** ** Python numbers *)

(** Python's [float] is IEEE 754 binary64. *)
Definition prec : Z := 53.
Definition emax : Z := 1024.
Definition float : Type := spec_float.

(** The exact value of an [int] as an unrounded mantissa with exponent 0. *)
Definition float_of_int_exact (a : Z) : float :=
  match a with
  | Z0 => S754_zero false
  | Zpos p => S754_finite false p 0
  | Zneg p => S754_finite true p 0
  end.

(** [a / b] on two [int]s: true division, the quotient of the exact
    integers rounded once to the nearest float. *)
Definition int_truediv (a b : Z) : result float :=
  if b =? 0 then Raise (ZeroDivisionError "division by zero")
  else match SFdiv prec emax (float_of_int_exact a) (float_of_int_exact b) with
       | S754_infinity _ => Raise (OverflowError "integer division result too large for a float")
       | q => Ok q
       end.

(** [f > z], [f == z] and [f >= z] for a float [f] and an int [z]: Python
    compares the exact values, without rounding [z] to a float. *)
Definition float_cmp_int (f : float) (z : Z) : option comparison :=
  match f with
  | S754_nan => None
  | S754_infinity s => Some (if s then Lt else Gt)
  | S754_zero _ => Some (0 ?= z)
  | S754_finite s m e =>
      let v := if s then Zneg m else Zpos m in
      Some (if 0 <=? e then (v * 2 ^ e ?= z) else (v ?= z * 2 ^ (- e)))
  end.

Definition float_gt_int (f : float) (z : Z) : bool :=
  match float_cmp_int f z with Some Gt => true | _ => false end.

Definition float_eq_int (f : float) (z : Z) : bool :=
  match float_cmp_int f z with Some Eq => true | _ => false end.

Definition float_ge_int (f : float) (z : Z) : bool :=
  match float_cmp_int f z with Some Gt | Some Eq => true | _ => false end.

Definition float_lt_int (f : float) (z : Z) : bool :=
  match float_cmp_int f z with Some Lt => true | _ => false end.

(** The number a float stands for, as an exact rational; none for an
    infinity or a NaN. *)
Definition float_value (f : float) : option Q :=
  match f with
  | S754_zero _ => Some 0%Q
  | S754_finite s m e => Some (inject_Z (if s then Zneg m else Zpos m) * Qpower 2 e)%Q
  | S754_infinity _ | S754_nan => None
  end.

(** [f >= 0], the reading of "non-negative" for a float. *)
Definition float_nonneg (f : float) : bool := float_ge_int f 0.

(** ** Python strings *)

(** [needle in hay] on two [str]s: substring test. *)
Fixpoint str_contains (needle hay : string) : bool :=
  match hay with
  | EmptyString => String.prefix needle hay
  | String _ rest => String.prefix needle hay || str_contains needle rest
  end.

(** ** The machine around the module *)

(** A method-call message as [jeepney.new_method_call] builds it. *)
Record Message : Type := {
  msg_path : string;
  msg_bus_name : string;
  msg_interface : string;
  msg_method : string
}.

(** What the session bus does with a method call. *)
Inductive BusAnswer : Type :=
| MethodReturn (body : list Z)      (* a reply message with this body *)
| ErrorReply (name : string)        (* an error message: [DBusErrorResponse] *)
| TransportFailure (e : exn).       (* the call itself raises [e] *)

Record World : Type := {
  (* [os.environ] *)
  environ : gmap string string;
  (* the session bus: [Some e] when connecting raises [e] *)
  session_bus_down : option exn;
  bus_answer : Message -> BusAnswer;
  (* connection [k] is open iff [connections !! k = Some true] *)
  connections : list bool;
  (* [ctypes.util.find_library] and [ctypes.cdll.LoadLibrary] *)
  library_paths : gmap string string;
  unloadable : gset string;
  (* the X server and its screen-saver extension *)
  x_server_up : bool;
  x_root : Z;
  xss_present : bool;
  x_idle_ms : Z;
  (* display [k] is open iff [displays !! k = Some true] *)
  displays : list bool;
  (* the [idle] field of every allocated XScreenSaverInfo buffer *)
  xss_buffers : list Z;
  fresh_memory : Z;
  (* what [win32api] reports *)
  tick_count : Z;
  last_input_tick : Z
}.

Definition set_connections (f : list bool -> list bool) (w : World) : World :=
  {| environ := environ w; session_bus_down := session_bus_down w;
     bus_answer := bus_answer w; connections := f (connections w);
     library_paths := library_paths w; unloadable := unloadable w;
     x_server_up := x_server_up w; x_root := x_root w;
     xss_present := xss_present w; x_idle_ms := x_idle_ms w;
     displays := displays w; xss_buffers := xss_buffers w;
     fresh_memory := fresh_memory w;
     tick_count := tick_count w; last_input_tick := last_input_tick w |}.

Definition set_displays (f : list bool -> list bool) (w : World) : World :=
  {| environ := environ w; session_bus_down := session_bus_down w;
     bus_answer := bus_answer w; connections := connections w;
     library_paths := library_paths w; unloadable := unloadable w;
     x_server_up := x_server_up w; x_root := x_root w;
     xss_present := xss_present w; x_idle_ms := x_idle_ms w;
     displays := f (displays w); xss_buffers := xss_buffers w;
     fresh_memory := fresh_memory w;
     tick_count := tick_count w; last_input_tick := last_input_tick w |}.

Definition set_xss_buffers (f : list Z -> list Z) (w : World) : World :=
  {| environ := environ w; session_bus_down := session_bus_down w;
     bus_answer := bus_answer w; connections := connections w;
     library_paths := library_paths w; unloadable := unloadable w;
     x_server_up := x_server_up w; x_root := x_root w;
     xss_present := xss_present w; x_idle_ms := x_idle_ms w;
     displays := displays w; xss_buffers := f (xss_buffers w);
     fresh_memory := fresh_memory w;
     tick_count := tick_count w; last_input_tick := last_input_tick w |}.

(** The resources a world holds open: connection and display handles. *)
Definition connection_open (k : nat) (w : World) : bool :=
  match connections w !! k with Some true => true | _ => false end.

Definition display_open (k : nat) (w : World) : bool :=
  match displays w !! k with Some true => true | _ => false end.

Definition open_count (handles : list bool) : nat :=
  length (filter (fun b => b = true) handles).

(** *** jeepney *)
Module jeepney.

Definition DBusAddress (path bus_name interface : string) : string * string * string :=
  (path, bus_name, interface).

Definition new_method_call (address : string * string * string) (method : string) : Message :=
  let '(path, bus_name, interface) := address in
  {| msg_path := path; msg_bus_name := bus_name;
     msg_interface := interface; msg_method := method |}.

(** [connect_and_authenticate(bus="SESSION")]: a new open connection. *)
Definition connect_and_authenticate : M World nat :=
  fun w => match session_bus_down w with
           | Some e => (Raise e, w)
           | None => (Ok (length (connections w)),
                      set_connections (fun cs => cs ++ [true]) w)
           end.

(** [connection.send_and_get_reply(message)]: the body of the reply. An
    error message is raised as [DBusErrorResponse]; a closed connection
    cannot send. *)
Definition send_and_get_reply (connection : nat) (message : Message) : M World (list Z) :=
  fun w => if connection_open connection w then
             match bus_answer w message with
             | MethodReturn body => (Ok body, w)
             | ErrorReply name => (Raise (DBusErrorResponse name), w)
             | TransportFailure e => (Raise e, w)
             end
           else (Raise (OSError "Bad file descriptor"), w).

(** [connection.close()] *)
Definition close (connection : nat) : M World unit :=
  modify (set_connections (fun cs => <[connection := false]> cs)).

End jeepney.

(** *** ctypes and the X libraries

    The foreign functions answer from the state of the machine. What
    libX11 and libXss do when handed a null display is theirs to decide
    and is not followed here: [XDefaultRootWindow] answers with the
    server's root window whatever the handle, [XScreenSaverQueryInfo]
    reports failure on a handle that is not an open display. *)
Module ctypes.

Definition c_ulong_bits : Z := 64.
Definition c_ulong (v : Z) : Z := v mod 2 ^ c_ulong_bits.
Definition c_uint32 (v : Z) : Z := v mod 2 ^ 32.

Definition find_library (name : string) : M World (option string) :=
  gets (fun w => library_paths w !! name).

Definition LoadLibrary (path : string) : M World string :=
  fun w => if decide (path ∈ unloadable w)
           then (Raise (OSError (path +:+ ": cannot open shared object file")), w)
           else (Ok path, w).

(** [XOpenDisplay(None)]: a new display handle, or NULL ([None]) when no
    server answers. *)
Definition XOpenDisplay : M World (option nat) :=
  fun w => if x_server_up w
           then (Ok (Some (length (displays w))),
                 set_displays (fun ds => ds ++ [true]) w)
           else (Ok None, w).

(** [XDefaultRootWindow(display)], read through its [c_uint32] restype. *)
Definition XDefaultRootWindow (display : option nat) : M World Z :=
  gets (fun w => c_uint32 (x_root w)).

(** [XScreenSaverAllocInfo()]: a new buffer holding whatever the
    allocator left there. *)
Definition XScreenSaverAllocInfo : M World nat :=
  fun w => (Ok (length (xss_buffers w)),
            set_xss_buffers (fun bs => bs ++ [c_ulong (fresh_memory w)]) w).

(** [XScreenSaverQueryInfo(display, root_window, info)]: on success the
    server's idle counter is stored in the buffer's [idle] field, a
    [c_ulong], and the status is 1; otherwise the status is 0 and the
    buffer is left as it was. *)
Definition XScreenSaverQueryInfo (display : option nat) (root_window : Z)
    (info : nat) : M World Z :=
  fun w => match display with
           | Some d =>
               if display_open d w && xss_present w
               then (Ok 1, set_xss_buffers (fun bs => <[info := c_ulong (x_idle_ms w)]> bs) w)
               else (Ok 0, w)
           | None => (Ok 0, w)
           end.

(** [info.contents.idle] *)
Definition contents_idle (info : nat) : M World Z :=
  fun w => match xss_buffers w !! info with
           | Some v => (Ok v, w)
           | None => (Raise (OtherException "ValueError" "NULL pointer access"), w)
           end.

End ctypes.

(** *** win32api *)
Module win32api.
Definition GetTickCount : M World Z := gets tick_count.
Definition GetLastInputInfo : M World Z := gets last_input_tick.
End win32api.

(** ** Monitor objects and classes *)

(** The attributes a backend's [__init__] stores on [self], besides
    [idle_threshold]. *)
Inductive Attrs : Type :=
| NoAttrs
| GnomeAttrs (connection : nat) (message : Message)
| X11Attrs (display : option nat) (root_window : Z) (lib_xss : string) (xss_info : nat).

Record Instance : Type := {
  idle_threshold : Z;
  attrs : Attrs
}.

(** Keyword arguments: [**kwargs]. *)
Abbreviation Kwargs := (gmap string Z).

(** A class deriving from [IdleMonitor], with its methods resolved:
    [cls_init kwargs] is the call of the class with [kwargs], [cls_get_idle_time] is
    the [get_idle_time] an instance of the class dispatches to. *)
Record Class : Type := {
  cls_name : string;
  cls_init : Kwargs -> M World Instance;
  cls_get_idle_time : Instance -> M World float
}.

(** What the selector does that an observer can see: the calls it makes on
    the candidate at position [i] of the registry, and its log records. *)
Inductive Event : Type :=
| EvConstruct (i : nat) (name : string)   (* [monitor_class] is called with [kwargs] *)
| EvQuery (i : nat) (name : string)       (* [m.get_idle_time()] is called *)
| EvInfo (name : string)                  (* [logger.info("Using %s", ...)] *)
| EvWarning (name : string) (e : exn).    (* [logger.warning(..., exc_info=True)] *)

Record Proc : Type := {
  world : World;
  events : list Event
}.

Definition lift {A} (c : M World A) : M Proc A :=
  fun p => let '(r, w) := c (world p) in (r, {| world := w; events := events p |}).

Definition emit (ev : Event) : M Proc unit :=
  modify (fun p => {| world := world p; events := events p ++ [ev] |}).

Module IdleMonitor.

(** [__init__] takes one keyword-only argument, [idle_threshold: int = 120];
    any other keyword is a [TypeError]. *)
Definition init (kwargs : Kwargs) : M World Instance :=
  if decide (delete "idle_threshold" kwargs = ∅)
  then ret {| idle_threshold := default 120 (kwargs !! "idle_threshold");
              attrs := NoAttrs |}
  else raise (TypeError "__init__() got an unexpected keyword argument").

(** [__init_subclass__(cls)]: [cls.subclasses.append(cls)]. *)
Definition init_subclass {C} (cls : C) (subclasses : list C) : list C :=
  subclasses ++ [cls].

Definition get_idle_time (self : Instance) : M World float :=
  raise NotImplementedError.

(** [is_idle(self)], inherited unchanged by every class of the module;
    [cls] is the class of [self]. *)
Definition is_idle (cls : Class) (self : Instance) : M World bool :=
  t <- cls_get_idle_time cls self ;;
  ret (float_gt_int t (idle_threshold self)).

(** The loop of [get_monitor], from position [i] of the registry on. *)
Fixpoint get_monitor_from (i : nat) (subclasses : list Class) (kwargs : Kwargs)
    : M Proc Instance :=
  match subclasses with
  | [] => raise (RuntimeError "Could not find a working monitor.")
  | monitor_class :: rest =>
      try_except_Exception
        (emit (EvConstruct i (cls_name monitor_class)) ;;;
         m <- lift (cls_init monitor_class kwargs) ;;
         emit (EvQuery i (cls_name monitor_class)) ;;;
         _ <- lift (cls_get_idle_time monitor_class m) ;;
         emit (EvInfo (cls_name monitor_class)) ;;;
         ret m)
        (fun e =>
           emit (EvWarning (cls_name monitor_class) e) ;;;
           get_monitor_from (S i) rest kwargs)
  end.

(** [get_monitor(cls, **kwargs)] over the registry [cls.subclasses]. *)
Definition get_monitor (subclasses : list Class) (kwargs : Kwargs) : M Proc Instance :=
  get_monitor_from 0 subclasses kwargs.

Definition cls : Class :=
  {| cls_name := "IdleMonitor"; cls_init := init; cls_get_idle_time := get_idle_time |}.

End IdleMonitor.

Module WindowsIdleMonitor.

Definition get_idle_time (self : Instance) : M World float :=
  ticks <- win32api.GetTickCount ;;
  last <- win32api.GetLastInputInfo ;;
  fun w => (int_truediv (ticks - last) 1000, w).

Definition cls : Class :=
  {| cls_name := "WindowsIdleMonitor";
     cls_init := IdleMonitor.init;
     cls_get_idle_time := get_idle_time |}.

End WindowsIdleMonitor.

(** The name of the bus error for a service nobody owns. *)
Definition ServiceUnknown : string := "org.freedesktop.DBus.Error.ServiceUnknown".

Module GnomeWaylandIdleMonitor.

Definition init (kwargs : Kwargs) : M World Instance :=
  self <- IdleMonitor.init kwargs ;;
  desktop <- gets (fun w => default "" (environ w !! "XDG_CURRENT_DESKTOP")) ;;
  if negb (str_contains "GNOME" desktop)
  then raise (RuntimeError "Gnome is not running.")
  else
    let address := jeepney.DBusAddress "/org/gnome/Mutter/IdleMonitor/Core"
                     "org.gnome.Mutter.IdleMonitor" "org.gnome.Mutter.IdleMonitor" in
    connection <- jeepney.connect_and_authenticate ;;
    let message := jeepney.new_method_call address "GetIdletime" in
    ret {| idle_threshold := idle_threshold self;
           attrs := GnomeAttrs connection message |}.

Definition get_idle_time (self : Instance) : M World float :=
  match attrs self with
  | GnomeAttrs connection message =>
      fun w =>
        match (reply <- jeepney.send_and_get_reply connection message ;;
               match reply with
               | idle_time :: _ => fun w' => (int_truediv idle_time 1000, w')
               | [] => raise (IndexError "tuple index out of range")
               end) w with
        | (Raise (DBusErrorResponse name), w') =>
            (jeepney.close connection ;;;
             if String.eqb name ServiceUnknown
             then raise (RuntimeErrorFrom "Gnome Mutter is not available, is gnome running?"
                           (DBusErrorResponse name))
             else raise (DBusErrorResponse name)) w'
        | other => other
        end
  | _ => raise (OtherException "AttributeError" "connection")
  end.

Definition cls : Class :=
  {| cls_name := "GnomeWaylandIdleMonitor";
     cls_init := init;
     cls_get_idle_time := get_idle_time |}.

End GnomeWaylandIdleMonitor.

Module X11IdleMonitor.

Definition load_lib (name : string) : M World string :=
  path <- ctypes.find_library name ;;
  match path with
  | None => raise (OSError ("Could not find library `" +:+ name +:+ "`"))
  | Some path => ctypes.LoadLibrary path
  end.

Definition init (kwargs : Kwargs) : M World Instance :=
  self <- IdleMonitor.init kwargs ;;
  lib_x11 <- load_lib "X11" ;;
  display <- ctypes.XOpenDisplay ;;
  root_window <- ctypes.XDefaultRootWindow display ;;
  lib_xss <- load_lib "Xss" ;;
  xss_info <- ctypes.XScreenSaverAllocInfo ;;
  ret {| idle_threshold := idle_threshold self;
         attrs := X11Attrs display root_window lib_xss xss_info |}.

Definition get_idle_time (self : Instance) : M World float :=
  match attrs self with
  | X11Attrs display root_window lib_xss xss_info =>
      _ <- ctypes.XScreenSaverQueryInfo display root_window xss_info ;;
      idle <- ctypes.contents_idle xss_info ;;
      fun w => (int_truediv idle 1000, w)
  | _ => raise (OtherException "AttributeError" "lib_xss")
  end.

Definition cls : Class :=
  {| cls_name := "X11IdleMonitor";
     cls_init := init;
     cls_get_idle_time := get_idle_time |}.

End X11IdleMonitor.

(** ** Class statements and the registry *)

(** A class object, as far as registration sees it: its resolved
    methods, the class it derives from ([None] for a class that derives
    from nothing defined here), whether its body binds the name
    [subclasses], and whether its body defines [__init_subclass__]
    ([Some true] when that hook calls [super().__init_subclass__()],
    [Some false] when it does not). Classes are numbered in the order
    their [class] statements run; class 0 is [IdleMonitor] itself. *)
Record ClassObj : Type := {
  co_class : Class;
  co_base : option nat;
  co_binds_subclasses : bool;
  co_hook : option bool
}.

(** The interpreter state the registry lives in: the classes defined so
    far, and the list bound to [subclasses] in the body of each class
    that binds the name, by the number of the class. A body that binds
    [subclasses] binds it to a list of its own; a hook other than
    [IdleMonitor]'s touches none of these lists. *)
Record Interp : Type := {
  classes : list ClassObj;
  lists : gmap nat (list nat)
}.

(** [IdleMonitor.subclasses]: the list the selector iterates over. *)
Definition subclasses (st : Interp) : list nat := default [] (lists st !! 0%nat).

(** A class statement: the class with its methods, its base, the list
    its body binds [subclasses] to (if it does), and its
    [__init_subclass__] (if it defines one; [true] when it calls
    [super]). *)
Record ClassStmt : Type := {
  stmt_class : Class;
  stmt_base : option nat;
  stmt_subclasses : option (list nat);
  stmt_hook : option bool
}.

(** [class c(base): ...] with a body that binds neither name, like the
    three backends of the module. *)
Definition plain (c : Class) (base : option nat) : ClassStmt :=
  {| stmt_class := c; stmt_base := base; stmt_subclasses := None; stmt_hook := None |}.

(** The lookup of [__init_subclass__] from class [id] upwards: does it
    arrive at [IdleMonitor]'s hook? A class that defines the hook
    without calling [super] ends the lookup. A base is defined before
    the classes that derive from it, so [id] steps up the chain are
    enough. *)
Fixpoint hook_reaches (cs : list ClassObj) (fuel id : nat) : bool :=
  match fuel with
  | O => false
  | S fuel' =>
      if Nat.eqb id 0 then true
      else
        match cs !! id with
        | Some co =>
            match co_hook co, co_base co with
            | Some false, _ => false
            | _, Some b => hook_reaches cs fuel' b
            | _, None => false
            end
        | None => false
        end
  end.

(** Does [IdleMonitor.__init_subclass__] run when class [id] is created?
    The hook is looked up on the bases of the new class. *)
Definition hook_runs (cs : list ClassObj) (id : nat) : bool :=
  match cs !! id with
  | Some co =>
      match co_base co with
      | Some b => hook_reaches cs (S b) b
      | None => false
      end
  | None => false
  end.

(** The lookup of the attribute [subclasses] on class [id]: the nearest
    class, from [id] upwards, whose body binds the name. *)
Fixpoint owner (cs : list ClassObj) (fuel id : nat) : option nat :=
  match fuel with
  | O => None
  | S fuel' =>
      match cs !! id with
      | Some co =>
          if co_binds_subclasses co then Some id
          else match co_base co with
               | Some b => owner cs fuel' b
               | None => None
               end
      | None => None
      end
  end.

(** Is class [id] appended to [IdleMonitor.subclasses] when it is
    created? The hook of [IdleMonitor] has to run, and [cls.subclasses]
    has to be [IdleMonitor]'s list. *)
Definition registers (cs : list ClassObj) (id : nat) : bool :=
  hook_runs cs id && bool_decide (owner cs (S id) id = Some 0%nat).

(** Is [IdleMonitor] (class 0) a proper ancestor of class [id]? *)
Fixpoint derives_fuel (cs : list ClassObj) (fuel id : nat) : bool :=
  match fuel with
  | O => false
  | S fuel' =>
      match cs !! id with
      | Some co =>
          match co_base co with
          | Some b => Nat.eqb b 0 || derives_fuel cs fuel' b
          | None => false
          end
      | None => false
      end
  end.


(** The state after [class IdleMonitor: subclasses = [] ...]: the body
    binds [subclasses] to an empty list and defines the hook, which
    calls [super]. *)
Definition class_IdleMonitor : Interp :=
  {| classes := [ {| co_class := IdleMonitor.cls; co_base := None;
                     co_binds_subclasses := true; co_hook := Some true |} ];
     lists := {[ 0%nat := [] ]} |}.

(** A class statement. The body is run and the new class object
    created; then [__init_subclass__] is looked up on its bases, and
    when the lookup arrives at [IdleMonitor]'s hook that hook runs
    [cls.subclasses.append(cls)], with [cls.subclasses] looked up on the
    new class. A base that is not defined is a [NameError]. *)
Definition class_stmt (stmt : ClassStmt) : M Interp unit :=
  fun st =>
    let id := length (classes st) in
    let co := {| co_class := stmt_class stmt; co_base := stmt_base stmt;
                 co_binds_subclasses := match stmt_subclasses stmt with
                                        | Some _ => true
                                        | None => false
                                        end;
                 co_hook := stmt_hook stmt |} in
    let cs := classes st ++ [co] in
    let bound := match stmt_subclasses stmt with
                 | Some l => <[id := l]> (lists st)
                 | None => lists st
                 end in
    if match stmt_base stmt with Some b => Nat.ltb b id | None => true end then
      if hook_runs cs id then
        match owner cs (S id) id with
        | Some k =>
            (Ok tt, {| classes := cs;
                       lists := alter (IdleMonitor.init_subclass id) k bound |})
        | None =>
            (Raise (OtherException "AttributeError" "subclasses"), st)
        end
      else (Ok tt, {| classes := cs; lists := bound |})
    else (Raise (OtherException "NameError" "name is not defined"), st).

(** A sequence of class statements, run until one raises. *)
Fixpoint class_stmts (stmts : list ClassStmt) : M Interp unit :=
  match stmts with
  | [] => ret tt
  | stmt :: rest => class_stmt stmt ;;; class_stmts rest
  end.

(** The module body: [WindowsIdleMonitor] is defined only when
    [import win32api] succeeds. *)
Definition module_body (win32api_importable : bool) : Interp :=
  snd (class_stmts
         ((if win32api_importable then [plain WindowsIdleMonitor.cls (Some 0%nat)] else [])
            ++ [plain GnomeWaylandIdleMonitor.cls (Some 0%nat);
                plain X11IdleMonitor.cls (Some 0%nat)])
         class_IdleMonitor).

(** The candidates [get_monitor] iterates over: the classes the shared
    list refers to. *)
Definition registry (st : Interp) : list Class :=
  omap (fun id => co_class <$> classes st !! id) (subclasses st).

(** ** Observations on a run *)

Definition is_construct (i : nat) (ev : Event) : bool :=
  match ev with EvConstruct j _ => Nat.eqb i j | _ => false end.

Definition is_query (i : nat) (ev : Event) : bool :=
  match ev with EvQuery j _ => Nat.eqb i j | _ => false end.

Definition count_constructs (i : nat) (evs : list Event) : nat :=
  length (List.filter (is_construct i) evs).

Definition count_queries (i : nat) (evs : list Event) : nat :=
  length (List.filter (is_query i) evs).

(** The position an event refers to, for the calls on a candidate. *)
Definition event_position (ev : Event) : option nat :=
  match ev with
  | EvConstruct i _ | EvQuery i _ => Some i
  | _ => None
  end.

(** A world with nothing in it: no desktop, no bus, no libraries, no X
    server, tick counters at 0. *)
Definition bare_world : World :=
  {| environ := ∅;
     session_bus_down := Some (OtherException "KeyError" "DBUS_SESSION_BUS_ADDRESS");
     bus_answer := fun _ => ErrorReply "org.freedesktop.DBus.Error.ServiceUnknown";
     connections := [];
     library_paths := ∅; unloadable := ∅;
     x_server_up := false; x_root := 0; xss_present := false; x_idle_ms := 0;
     displays := []; xss_buffers := []; fresh_memory := 0;
     tick_count := 0; last_input_tick := 0 |}.

Definition start (w : World) : Proc := {| world := w; events := [] |}.

(** ** Candidates the selector discards *)

(** [discarded kwargs c w w' constructed]: tried in world [w], candidate
    [c] fails with an exception that is an instance of [Exception] and
    leaves world [w']; [constructed] tells whether its constructor
    returned (and the failure is the probe query's) or raised. *)
Inductive discarded (kwargs : Kwargs) (c : Class) (w w' : World) : bool -> Prop :=
| discarded_construct e :
    cls_init c kwargs w = (Raise e, w') ->
    is_Exception e = true ->
    discarded kwargs c w w' false
| discarded_probe m w1 e :
    cls_init c kwargs w = (Ok m, w1) ->
    cls_get_idle_time c m w1 = (Raise e, w') ->
    is_Exception e = true ->
    discarded kwargs c w w' true.

(** Every candidate of a list fails, one after the other, from world [w]
    to world [w']; the flags tell which ones were constructed. *)
Inductive all_discarded (kwargs : Kwargs) : list Class -> World -> World -> list bool -> Prop :=
| all_discarded_nil w :
    all_discarded kwargs [] w w []
| all_discarded_cons c cs w w1 w2 b bs :
    discarded kwargs c w w1 b ->
    all_discarded kwargs cs w1 w2 bs ->
    all_discarded kwargs (c :: cs) w w2 (b :: bs).

(** The events of one discarded candidate. *)
Definition discard_events (i : nat) (name : string) (constructed : bool) (e : exn)
    : list Event :=
  EvConstruct i name :: (if constructed then [EvQuery i name] else []) ++ [EvWarning name e].

(** The resources a world holds: open connections, open displays,
    allocated query buffers. *)
Definition held (w : World) : nat * nat * nat :=
  (open_count (connections w), open_count (displays w), length (xss_buffers w)).

(** ** Scenario candidates *)

(** Three candidates in the shape of the selector's test scenario: [A]
    fails to construct, [B] constructs and its query throws, [C]
    constructs and its query returns 300.0; [D] reports 50.0. *)
Module Scenario.

Definition seconds_300 : float := S754_finite false 5277655813324800 (-44).
Definition seconds_50 : float := S754_finite false 7036874417766400 (-47).

Definition A : Class :=
  {| cls_name := "A";
     cls_init := fun _ => raise (RuntimeError "A is not available");
     cls_get_idle_time := IdleMonitor.get_idle_time |}.

Definition B : Class :=
  {| cls_name := "B";
     cls_init := IdleMonitor.init;
     cls_get_idle_time := fun _ => raise (OSError "B cannot be queried") |}.

Definition C : Class :=
  {| cls_name := "C";
     cls_init := IdleMonitor.init;
     cls_get_idle_time := fun _ => ret seconds_300 |}.

Definition D : Class :=
  {| cls_name := "D";
     cls_init := IdleMonitor.init;
     cls_get_idle_time := fun _ => ret seconds_50 |}.

(** Candidates interrupted from outside: [K] while it is constructed,
    [Kq] while it is queried; [Kx] exits the interpreter in its
    constructor. *)
Definition K : Class :=
  {| cls_name := "K";
     cls_init := fun _ => raise KeyboardInterrupt;
     cls_get_idle_time := IdleMonitor.get_idle_time |}.

Definition Kq : Class :=
  {| cls_name := "Kq";
     cls_init := IdleMonitor.init;
     cls_get_idle_time := fun _ => raise KeyboardInterrupt |}.

Definition Kx : Class :=
  {| cls_name := "Kx";
     cls_init := fun _ => raise (SystemExit 1);
     cls_get_idle_time := IdleMonitor.get_idle_time |}.

End Scenario.

(** ** Some machines *)

(** A GNOME session with a session bus that answers [GetIdletime] with
    [answer]; no connection opened yet. *)
Definition gnome_session (answer : BusAnswer) : World :=
  {| environ := {[ "XDG_CURRENT_DESKTOP" := "ubuntu:GNOME" ]};
     session_bus_down := None;
     bus_answer := fun _ => answer;
     connections := [];
     library_paths := ∅; unloadable := ∅;
     x_server_up := false; x_root := 0; xss_present := false; x_idle_ms := 0;
     displays := []; xss_buffers := []; fresh_memory := 0;
     tick_count := 0; last_input_tick := 0 |}.

(** The message [GnomeWaylandIdleMonitor.__init__] prepares. *)
Definition GetIdletime_call : Message :=
  {| msg_path := "/org/gnome/Mutter/IdleMonitor/Core";
     msg_bus_name := "org.gnome.Mutter.IdleMonitor";
     msg_interface := "org.gnome.Mutter.IdleMonitor";
     msg_method := "GetIdletime" |}.

(** An X session where libX11 is installed and libXss is not. *)
Definition x11_without_xss : World :=
  {| environ := {[ "XDG_CURRENT_DESKTOP" := "XFCE" ]};
     session_bus_down := None;
     bus_answer := fun _ => ErrorReply ServiceUnknown;
     connections := [];
     library_paths := {[ "X11" := "libX11.so.6" ]}; unloadable := ∅;
     x_server_up := true; x_root := 1980; xss_present := false; x_idle_ms := 0;
     displays := []; xss_buffers := []; fresh_memory := 0;
     tick_count := 0; last_input_tick := 0 |}.

(** A Windows machine whose 32-bit tick counter has wrapped around since
    the last input: the input came one second before the wrap, the query
    half a second after it. *)
Definition windows_after_wrap : World :=
  {| environ := ∅;
     session_bus_down := Some (OtherException "KeyError" "DBUS_SESSION_BUS_ADDRESS");
     bus_answer := fun _ => ErrorReply ServiceUnknown;
     connections := [];
     library_paths := ∅; unloadable := ∅;
     x_server_up := false; x_root := 0; xss_present := false; x_idle_ms := 0;
     displays := []; xss_buffers := []; fresh_memory := 0;
     tick_count := 500; last_input_tick := 2 ^ 32 - 1000 |}.

(** A tick count as Windows reports it: a DWORD. *)
Definition dword (v : Z) : Prop := 0 <= v < 2 ^ 32.

(** An idle time as Mutter reports it: a D-Bus UINT64. *)
Definition uint64 (v : Z) : Prop := 0 <= v < 2 ^ 64.

(** ** Invariants *)

(** The class table is well-formed: class 0 is [IdleMonitor], deriving
    from nothing, and every base was defined before the class that names
    it. *)
Definition table_ok (cs : list ClassObj) : Prop :=
  cs !! 0%nat = Some {| co_class := IdleMonitor.cls; co_base := None;
                        co_binds_subclasses := true; co_hook := Some true |}
  /\ forall id co b, cs !! id = Some co -> co_base co = Some b -> (b < id)%nat.

(** The shared list holds the classes that were appended to it when they
    were created, in the order of their definition. *)
Definition registry_ok (st : Interp) : Prop :=
  table_ok (classes st)
  /\ lists st !! 0%nat
     = Some (List.filter (registers (classes st)) (seq 0 (length (classes st)))).




(** A float whose sign bit is clear: a zero, a finite float or an infinity
    with sign [false], not a NaN. *)
Definition sign_false (f : float) : Prop :=
  match f with
  | S754_zero s | S754_infinity s | S754_finite s _ _ => s = false
  | S754_nan => False
  end.

(** An X session with both libraries installed, the screen-saver
    extension present and the server's idle counter at [idle_ms]. *)
Definition x11_desktop (idle_ms : Z) : World :=
  {| environ := {[ "XDG_CURRENT_DESKTOP" := "XFCE" ]};
     session_bus_down := None;
     bus_answer := fun _ => ErrorReply ServiceUnknown;
     connections := [];
     library_paths := {[ "X11" := "libX11.so.6"; "Xss" := "libXss.so.1" ]};
     unloadable := ∅;
     x_server_up := true; x_root := 1980; xss_present := true; x_idle_ms := idle_ms;
     displays := []; xss_buffers := []; fresh_memory := 0;
     tick_count := 0; last_input_tick := 0 |}.

(** A GNOME session whose session bus refuses connections. *)
Definition gnome_without_bus : World :=
  {| environ := {[ "XDG_CURRENT_DESKTOP" := "GNOME" ]};
     session_bus_down := Some (OSError "Connection refused");
     bus_answer := fun _ => ErrorReply ServiceUnknown;
     connections := [];
     library_paths := ∅; unloadable := ∅;
     x_server_up := false; x_root := 0; xss_present := false; x_idle_ms := 0;
     displays := []; xss_buffers := []; fresh_memory := 0;
     tick_count := 0; last_input_tick := 0 |}.

(** A Windows machine with the given tick counts. *)
Definition windows_machine (ticks last_input : Z) : World :=
  {| environ := ∅;
     session_bus_down := Some (OtherException "KeyError" "DBUS_SESSION_BUS_ADDRESS");
     bus_answer := fun _ => ErrorReply ServiceUnknown;
     connections := [];
     library_paths := ∅; unloadable := ∅;
     x_server_up := false; x_root := 0; xss_present := false; x_idle_ms := 0;
     displays := []; xss_buffers := []; fresh_memory := 0;
     tick_count := ticks; last_input_tick := last_input |}.

(** An X session with both libraries installed, on a server that lacks
    the screen-saver extension; [junk] is what a newly allocated buffer
    holds. *)
Definition x11_without_extension (junk : Z) : World :=
  {| environ := {[ "XDG_CURRENT_DESKTOP" := "XFCE" ]};
     session_bus_down := None;
     bus_answer := fun _ => ErrorReply ServiceUnknown;
     connections := [];
     library_paths := {[ "X11" := "libX11.so.6"; "Xss" := "libXss.so.1" ]};
     unloadable := ∅;
     x_server_up := true; x_root := 1980; xss_present := false; x_idle_ms := 0;
     displays := []; xss_buffers := []; fresh_memory := junk;
     tick_count := 0; last_input_tick := 0 |}.

(** ** Log records *)

(** The records a run leaves in the log, without the calls in between. *)
Inductive LogRecord : Type :=
| LogInfo (name : string)
| LogWarning (name : string).

Definition log_of (ev : Event) : option LogRecord :=
  match ev with
  | EvInfo name => Some (LogInfo name)
  | EvWarning name _ => Some (LogWarning name)
  | _ => None
  end.

Definition log_records (evs : list Event) : list LogRecord := omap log_of evs.

(** * Properties *)

(** ** The selector, one candidate at a time *)

Section Selector.

Variable kwargs : Kwargs.

Lemma step_construct_fails i c rest p e w' :
  cls_init c kwargs (world p) = (Raise e, w') ->
  is_Exception e = true ->
  IdleMonitor.get_monitor_from i (c :: rest) kwargs p
  = IdleMonitor.get_monitor_from (S i) rest kwargs
      {| world := w'; events := events p ++ discard_events i (cls_name c) false e |}.
Proof.
  intros Hinit He. destruct p as [w evs]. simpl in Hinit.
  cbn [IdleMonitor.get_monitor_from].
  unfold try_except_Exception, bind, emit, modify, lift.
  simpl. rewrite Hinit. simpl. rewrite He.
  unfold discard_events. simpl. by rewrite <- app_assoc.
Qed.

Lemma step_probe_fails i c rest p m w1 e w' :
  cls_init c kwargs (world p) = (Ok m, w1) ->
  cls_get_idle_time c m w1 = (Raise e, w') ->
  is_Exception e = true ->
  IdleMonitor.get_monitor_from i (c :: rest) kwargs p
  = IdleMonitor.get_monitor_from (S i) rest kwargs
      {| world := w'; events := events p ++ discard_events i (cls_name c) true e |}.
Proof.
  intros Hinit Hq He. destruct p as [w evs]. simpl in Hinit.
  cbn [IdleMonitor.get_monitor_from].
  unfold try_except_Exception, bind, emit, modify, lift.
  simpl. rewrite Hinit. simpl. rewrite Hq. simpl. rewrite He.
  unfold discard_events. simpl. by rewrite <- !app_assoc.
Qed.

(** An exception that is not an instance of [Exception] ends the loop
    where it is raised. *)
Lemma step_construct_escapes i c rest p e w' :
  cls_init c kwargs (world p) = (Raise e, w') ->
  is_Exception e = false ->
  IdleMonitor.get_monitor_from i (c :: rest) kwargs p
  = (Raise e, {| world := w'; events := events p ++ [EvConstruct i (cls_name c)] |}).
Proof.
  intros Hinit He. destruct p as [w evs]. simpl in Hinit.
  cbn [IdleMonitor.get_monitor_from].
  unfold try_except_Exception, bind, emit, modify, lift.
  simpl. rewrite Hinit. simpl. by rewrite He.
Qed.

Lemma step_probe_escapes i c rest p m w1 e w' :
  cls_init c kwargs (world p) = (Ok m, w1) ->
  cls_get_idle_time c m w1 = (Raise e, w') ->
  is_Exception e = false ->
  IdleMonitor.get_monitor_from i (c :: rest) kwargs p
  = (Raise e, {| world := w';
                 events := events p ++ [EvConstruct i (cls_name c);
                                        EvQuery i (cls_name c)] |}).
Proof.
  intros Hinit Hq He. destruct p as [w evs]. simpl in Hinit.
  cbn [IdleMonitor.get_monitor_from].
  unfold try_except_Exception, bind, emit, modify, lift.
  simpl. rewrite Hinit. simpl. rewrite Hq. simpl. rewrite He.
  by rewrite <- !app_assoc.
Qed.

Lemma step_works i c rest p m w1 t w2 :
  cls_init c kwargs (world p) = (Ok m, w1) ->
  cls_get_idle_time c m w1 = (Ok t, w2) ->
  IdleMonitor.get_monitor_from i (c :: rest) kwargs p
  = (Ok m, {| world := w2;
              events := events p ++ [EvConstruct i (cls_name c);
                                     EvQuery i (cls_name c);
                                     EvInfo (cls_name c)] |}).
Proof.
  intros Hinit Hq. destruct p as [w evs]. simpl in Hinit.
  cbn [IdleMonitor.get_monitor_from].
  unfold try_except_Exception, bind, emit, modify, lift, ret.
  simpl. rewrite Hinit. simpl. rewrite Hq. simpl.
  by rewrite <- !app_assoc.
Qed.

Lemma step_discarded i c rest p w' b :
  discarded kwargs c (world p) w' b ->
  exists e,
    is_Exception e = true
    /\ IdleMonitor.get_monitor_from i (c :: rest) kwargs p
       = IdleMonitor.get_monitor_from (S i) rest kwargs
           {| world := w'; events := events p ++ discard_events i (cls_name c) b e |}.
Proof.
  intros [e Hinit He | m w1 e Hinit Hq He]; exists e; (split; [exact He |]).
  - by apply step_construct_fails.
  - by eapply step_probe_fails.
Qed.

Ltac positions_in_range :=
  unfold discard_events; simpl;
  repeat match goal with
    | |- Forall _ (_ :: _) =>
        constructor; [ simpl; intros ? Hpos; inversion Hpos; subst; simpl; lia | ]
    | |- Forall _ [] => constructor
    end.

(** Every call the loop records is on a position it iterates over. *)
Lemma events_in_range subs : forall i p r p',
  IdleMonitor.get_monitor_from i subs kwargs p = (r, p') ->
  exists evs,
    events p' = events p ++ evs /\
    Forall (fun ev => forall j, event_position ev = Some j ->
                                (i <= j < i + length subs)%nat) evs.
Proof.
  induction subs as [| c rest IH]; intros i p r p' Hrun.
  - cbn in Hrun. injection Hrun as _ <-. exists []. split; [by rewrite app_nil_r | constructor].
  - destruct (cls_init c kwargs (world p)) as [[m | e] w1] eqn:Hinit.
    + destruct (cls_get_idle_time c m w1) as [[t | e] w2] eqn:Hq.
      * rewrite (step_works _ _ _ _ _ _ _ _ Hinit Hq) in Hrun.
        injection Hrun as _ <-. eexists. split; [reflexivity |].
        positions_in_range.
      * destruct (is_Exception e) eqn:He.
        -- rewrite (step_probe_fails _ _ _ _ _ _ _ _ Hinit Hq He) in Hrun.
           apply IH in Hrun as (evs & Hev & Hall). simpl in Hev.
           eexists. split; [rewrite Hev, <- app_assoc; reflexivity |].
           apply Forall_app. split; [positions_in_range |].
           eapply Forall_impl; [exact Hall |]. simpl. intros ev H j Hj.
           specialize (H j Hj). lia.
        -- rewrite (step_probe_escapes _ _ _ _ _ _ _ _ Hinit Hq He) in Hrun.
           injection Hrun as _ <-. eexists. split; [reflexivity |].
           positions_in_range.
    + destruct (is_Exception e) eqn:He.
      * rewrite (step_construct_fails _ _ _ _ _ _ Hinit He) in Hrun.
        apply IH in Hrun as (evs & Hev & Hall). simpl in Hev.
        eexists. split; [rewrite Hev, <- app_assoc; reflexivity |].
        apply Forall_app. split; [positions_in_range |].
        eapply Forall_impl; [exact Hall |]. simpl. intros ev H j Hj.
        specialize (H j Hj). lia.
      * rewrite (step_construct_escapes _ _ _ _ _ _ Hinit He) in Hrun.
        injection Hrun as _ <-. eexists. split; [reflexivity |].
        positions_in_range.
Qed.

End Selector.

(** ** Counting the calls of a run *)

(** Case analysis on every comparison of naturals in the goal. *)
Ltac nat_cases :=
  repeat match goal with
    | |- context [Nat.leb ?a ?b] => destruct (Nat.leb_spec a b)
    | |- context [Nat.ltb ?a ?b] => destruct (Nat.ltb_spec a b)
    | |- context [Nat.eqb ?a ?b] => destruct (Nat.eqb_spec a b)
    end;
  simpl; try reflexivity; try lia.

Lemma count_constructs_app j evs1 evs2 :
  count_constructs j (evs1 ++ evs2)
  = (count_constructs j evs1 + count_constructs j evs2)%nat.
Proof. unfold count_constructs. by rewrite List.filter_app, length_app. Qed.

Lemma count_queries_app j evs1 evs2 :
  count_queries j (evs1 ++ evs2) = (count_queries j evs1 + count_queries j evs2)%nat.
Proof. unfold count_queries. by rewrite List.filter_app, length_app. Qed.

Lemma count_constructs_discard j i name b e :
  count_constructs j (discard_events i name b e) = if Nat.eqb j i then 1%nat else 0%nat.
Proof.
  unfold count_constructs, discard_events. destruct b; simpl;
    destruct (Nat.eqb j i); reflexivity.
Qed.

Lemma count_queries_discard j i name b e :
  count_queries j (discard_events i name b e) = if Nat.eqb j i && b then 1%nat else 0%nat.
Proof.
  unfold count_queries, discard_events. destruct b; simpl;
    destruct (Nat.eqb j i); reflexivity.
Qed.

Lemma count_constructs_winner j i name :
  count_constructs j [EvConstruct i name; EvQuery i name; EvInfo name]
  = if Nat.eqb j i then 1%nat else 0%nat.
Proof. unfold count_constructs. simpl. destruct (Nat.eqb j i); reflexivity. Qed.

Lemma count_queries_winner j i name :
  count_queries j [EvConstruct i name; EvQuery i name; EvInfo name]
  = if Nat.eqb j i then 1%nat else 0%nat.
Proof. unfold count_queries. simpl. destruct (Nat.eqb j i); reflexivity. Qed.

Lemma all_discarded_length kwargs cs w w' flags :
  all_discarded kwargs cs w w' flags -> length flags = length cs.
Proof. induction 1; simpl; congruence. Qed.

(** A prefix of discarded candidates is walked through: each one is
    constructed once, queried once if it was constructed, and the loop
    goes on behind the prefix in the world the prefix left. *)
Lemma run_discarded kwargs pre w0 w1 flags :
  all_discarded kwargs pre w0 w1 flags ->
  forall i evs0 rest,
  exists evs,
    IdleMonitor.get_monitor_from i (pre ++ rest) kwargs {| world := w0; events := evs0 |}
    = IdleMonitor.get_monitor_from (i + length pre) rest kwargs
        {| world := w1; events := evs0 ++ evs |}
    /\ (forall j, count_constructs j evs
                  = if Nat.leb i j && Nat.ltb j (i + length pre) then 1%nat else 0%nat)
    /\ (forall j, count_queries j evs
                  = if Nat.leb i j && nth (j - i) flags false then 1%nat else 0%nat).
Proof.
  induction 1 as [w | c cs w w1 w2 b bs Hc Hcs IH]; intros i evs0 rest.
  - exists []. simpl. rewrite app_nil_r, Nat.add_0_r. split; [reflexivity |].
    split; intros j.
    + nat_cases.
    + destruct (Nat.leb i j), (j - i)%nat; reflexivity.
  - destruct (step_discarded kwargs i c (cs ++ rest) {| world := w; events := evs0 |} w1 b Hc)
      as (e & _ & Hstep).
    destruct (IH (S i) (evs0 ++ discard_events i (cls_name c) b e) rest)
      as (evs & Hrun & Hcon & Hqry).
    exists (discard_events i (cls_name c) b e ++ evs).
    split; [| split].
    + change ((c :: cs) ++ rest) with (c :: (cs ++ rest)).
      rewrite Hstep. cbn [world events]. rewrite Hrun.
      rewrite <- app_assoc. f_equal. cbn [length]. lia.
    + intros j. rewrite count_constructs_app, count_constructs_discard, Hcon.
      cbn [length]. nat_cases.
    + intros j. rewrite count_queries_app, count_queries_discard, Hqry.
      destruct (Nat.eqb_spec j i) as [-> | Hne].
      * rewrite Nat.sub_diag, Nat.leb_refl.
        replace (Nat.leb (S i) i) with false by (symmetry; apply Nat.leb_gt; lia).
        destruct b; reflexivity.
      * destruct (Nat.leb_spec i j), (Nat.leb_spec (S i) j); try lia; [| reflexivity].
        replace (j - i)%nat with (S (j - S i)) by lia. cbn [nth andb Nat.add].
        destruct (nth (j - S i) bs false); reflexivity.
Qed.

(** ** C1 *)

(** C1, as the code has it. When the candidates before [c] all fail with
    instances of [Exception] and [c] constructs and answers its probe
    query, [get_monitor] returns the instance [c] constructed. Along the
    way every candidate up to and including [c] is constructed exactly
    once and none after it; a candidate is queried exactly once if its
    construction succeeded and not at all otherwise. *)
Theorem get_monitor_returns_first_working kwargs pre c post w0 w1 flags m w2 t w3 :
  all_discarded kwargs pre w0 w1 flags ->
  cls_init c kwargs w1 = (Ok m, w2) ->
  cls_get_idle_time c m w2 = (Ok t, w3) ->
  exists evs,
    IdleMonitor.get_monitor (pre ++ c :: post) kwargs (start w0)
    = (Ok m, {| world := w3; events := evs |})
    /\ (forall j, count_constructs j evs = if Nat.leb j (length pre) then 1%nat else 0%nat)
    /\ (forall j, count_queries j evs
                  = if nth j (flags ++ [true]) false then 1%nat else 0%nat).
Proof.
  intros Hpre Hinit Hq.
  destruct (run_discarded kwargs pre w0 w1 flags Hpre 0%nat [] (c :: post))
    as (evs & Hrun & Hcon & Hqry).
  pose proof (all_discarded_length _ _ _ _ _ Hpre) as Hlen.
  eexists. split; [| split].
  - unfold IdleMonitor.get_monitor, start. rewrite Hrun.
    by apply (step_works kwargs _ c post _ m w2 t w3).
  - intros j. rewrite count_constructs_app, Hcon, count_constructs_winner.
    rewrite !Nat.add_0_l. nat_cases.
  - intros j. rewrite count_queries_app, Hqry, count_queries_winner.
    rewrite Nat.sub_0_r, Nat.add_0_l. cbn [Nat.leb andb].
    destruct (Nat.lt_trichotomy j (length pre)) as [Hlt | [-> | Hgt]].
    + rewrite app_nth1 by lia. destruct (Nat.eqb_spec j (length pre)); [lia |].
      destruct (nth j flags false); reflexivity.
    + rewrite app_nth2 by lia. rewrite nth_overflow by lia.
      rewrite Hlen, Nat.sub_diag, Nat.eqb_refl. reflexivity.
    + rewrite app_nth2 by lia. rewrite nth_overflow by lia.
      rewrite (nth_overflow [true]) by (simpl; lia).
      destruct (Nat.eqb_spec j (length pre)); [lia | reflexivity].
Qed.

Lemma get_monitor_returns_first_working_witness :
  all_discarded ∅ [Scenario.A; Scenario.B] bare_world bare_world [false; true] /\
  exists evs,
    IdleMonitor.get_monitor ([Scenario.A; Scenario.B] ++ Scenario.C :: []) ∅ (start bare_world)
    = (Ok {| idle_threshold := 120; attrs := NoAttrs |},
       {| world := bare_world; events := evs |})
    /\ (forall j, count_constructs j evs = if Nat.leb j 2 then 1%nat else 0%nat)
    /\ (forall j, count_queries j evs
                  = if nth j ([false; true] ++ [true]) false then 1%nat else 0%nat).
Proof.
  assert (H : all_discarded ∅ [Scenario.A; Scenario.B] bare_world bare_world [false; true]).
  { eapply all_discarded_cons; [eapply discarded_construct; reflexivity |].
    eapply all_discarded_cons; [eapply discarded_probe; reflexivity |].
    apply all_discarded_nil. }
  split; [exact H |].
  exact (get_monitor_returns_first_working ∅ [Scenario.A; Scenario.B] Scenario.C []
           bare_world bare_world [false; true] _ bare_world Scenario.seconds_300 bare_world
           H eq_refl eq_refl).
Defined.

(** C1, as stated, fails. [C] constructs and answers, and it is the first
    candidate to do so, but the constructor of [K] before it is
    interrupted: [get_monitor] lets the [KeyboardInterrupt] out and [C]
    is never tried. *)
Lemma interrupted_constructor_hides_working_candidate :
  cls_init Scenario.K ∅ bare_world = (Raise KeyboardInterrupt, bare_world)
  /\ cls_init Scenario.C ∅ bare_world
     = (Ok {| idle_threshold := 120; attrs := NoAttrs |}, bare_world)
  /\ cls_get_idle_time Scenario.C {| idle_threshold := 120; attrs := NoAttrs |} bare_world
     = (Ok Scenario.seconds_300, bare_world)
  /\ IdleMonitor.get_monitor [Scenario.K; Scenario.C] ∅ (start bare_world)
     = (Raise KeyboardInterrupt,
        {| world := bare_world; events := [EvConstruct 0 "K"] |})
  /\ count_constructs 1
       (events (snd (IdleMonitor.get_monitor [Scenario.K; Scenario.C] ∅ (start bare_world))))
     = 0%nat.
Proof. repeat split; reflexivity. Qed.

(** ** C2 *)

(** C2, as the code has it. When every candidate of the registry fails
    with an instance of [Exception], the empty registry included,
    [get_monitor] raises the error that says no monitor works, in a state
    where every candidate has been constructed exactly once (and queried
    exactly once if its construction succeeded). *)
Theorem get_monitor_raises_when_all_fail kwargs subs w0 w1 flags :
  all_discarded kwargs subs w0 w1 flags ->
  exists evs,
    IdleMonitor.get_monitor subs kwargs (start w0)
    = (Raise (RuntimeError "Could not find a working monitor."),
       {| world := w1; events := evs |})
    /\ (forall j, count_constructs j evs = if Nat.ltb j (length subs) then 1%nat else 0%nat)
    /\ (forall j, count_queries j evs = if nth j flags false then 1%nat else 0%nat).
Proof.
  intros Hall.
  destruct (run_discarded kwargs subs w0 w1 flags Hall 0%nat [] [])
    as (evs & Hrun & Hcon & Hqry).
  exists evs. split; [| split].
  - unfold IdleMonitor.get_monitor, start. rewrite app_nil_r in Hrun. rewrite Hrun.
    reflexivity.
  - intros j. rewrite Hcon. reflexivity.
  - intros j. rewrite Hqry, Nat.sub_0_r. reflexivity.
Qed.

Lemma get_monitor_raises_when_all_fail_witness :
  all_discarded ∅ [Scenario.B; Scenario.A] bare_world bare_world [true; false] /\
  exists evs,
    IdleMonitor.get_monitor [Scenario.B; Scenario.A] ∅ (start bare_world)
    = (Raise (RuntimeError "Could not find a working monitor."),
       {| world := bare_world; events := evs |})
    /\ (forall j, count_constructs j evs = if Nat.ltb j 2 then 1%nat else 0%nat)
    /\ (forall j, count_queries j evs = if nth j [true; false] false then 1%nat else 0%nat).
Proof.
  assert (H : all_discarded ∅ [Scenario.B; Scenario.A] bare_world bare_world [true; false]).
  { eapply all_discarded_cons; [eapply discarded_probe; reflexivity |].
    eapply all_discarded_cons; [eapply discarded_construct; reflexivity |].
    apply all_discarded_nil. }
  split; [exact H |].
  exact (get_monitor_raises_when_all_fail ∅ [Scenario.B; Scenario.A]
           bare_world bare_world [true; false] H).
Defined.

(** C2, as stated, fails. Both candidates fail to construct, the first
    one by exiting the interpreter: what leaves [get_monitor] is that
    [SystemExit], not the [RuntimeError], and the second candidate is
    never attempted. *)
Lemma exiting_constructor_ends_the_search :
  cls_init Scenario.Kx ∅ bare_world = (Raise (SystemExit 1), bare_world)
  /\ cls_init Scenario.A ∅ bare_world
     = (Raise (RuntimeError "A is not available"), bare_world)
  /\ IdleMonitor.get_monitor [Scenario.Kx; Scenario.A] ∅ (start bare_world)
     = (Raise (SystemExit 1), {| world := bare_world; events := [EvConstruct 0 "Kx"] |})
  /\ fst (IdleMonitor.get_monitor [Scenario.Kx; Scenario.A] ∅ (start bare_world))
     <> Raise (RuntimeError "Could not find a working monitor.")
  /\ count_constructs 1
       (events (snd (IdleMonitor.get_monitor [Scenario.Kx; Scenario.A] ∅ (start bare_world))))
     = 0%nat.
Proof. repeat split; try reflexivity. discriminate. Qed.

(** The empty registry: the error is raised at once, nothing is tried. *)
Example get_monitor_empty_registry kwargs w :
  IdleMonitor.get_monitor [] kwargs (start w)
  = (Raise (RuntimeError "Could not find a working monitor."), start w).
Proof. reflexivity. Qed.

(** ** C3 *)

Lemma no_query_below i evs :
  Forall (fun ev => forall j, event_position ev = Some j -> (S i <= j)%nat) evs ->
  count_queries i evs = 0%nat.
Proof.
  induction 1 as [| ev evs Hev _ IH]; [reflexivity |].
  unfold count_queries in *. simpl. destruct ev as [j n | j n | n | n e]; simpl; try exact IH.
  destruct (Nat.eqb_spec i j) as [-> | _]; [| exact IH].
  specialize (Hev j eq_refl). lia.
Qed.

(** C3, as the code has it. A candidate whose constructor raises,
    whatever it raises, never has its [get_idle_time] called, neither
    then nor later in the run. A candidate that fails with an instance
    of [Exception] is passed over: the loop logs a warning and goes on
    with the next candidate, in the world the failure left, whether the
    constructor raised or the probe query did. *)
Theorem discarded_candidate_is_passed_over kwargs i c rest p :
  (forall e w',
      cls_init c kwargs (world p) = (Raise e, w') ->
      forall r p',
        IdleMonitor.get_monitor_from i (c :: rest) kwargs p = (r, p') ->
        exists evs, events p' = events p ++ evs /\ count_queries i evs = 0%nat)
  /\ (forall w' constructed,
        discarded kwargs c (world p) w' constructed ->
        exists e,
          is_Exception e = true
          /\ IdleMonitor.get_monitor_from i (c :: rest) kwargs p
             = IdleMonitor.get_monitor_from (S i) rest kwargs
                 {| world := w';
                    events := events p ++ discard_events i (cls_name c) constructed e |}).
Proof.
  split.
  - intros e w' Hinit r p' Hrun. destruct (is_Exception e) eqn:He.
    + rewrite (step_construct_fails kwargs i c rest p e w' Hinit He) in Hrun.
      apply events_in_range in Hrun as (evs & Hev & Hpos). cbn [events] in Hev.
      exists (discard_events i (cls_name c) false e ++ evs).
      split; [by rewrite Hev, app_assoc |].
      rewrite count_queries_app, count_queries_discard, andb_false_r.
      rewrite no_query_below; [reflexivity |].
      eapply Forall_impl; [exact Hpos |]. simpl. intros ev H j Hj. specialize (H j Hj). lia.
    + rewrite (step_construct_escapes kwargs i c rest p e w' Hinit He) in Hrun.
      injection Hrun as _ <-. eexists. split; [reflexivity |]. reflexivity.
  - intros w' constructed Hd. by apply step_discarded.
Qed.

Lemma discarded_candidate_is_passed_over_witness :
  (cls_init Scenario.A ∅ (world (start bare_world))
   = (Raise (RuntimeError "A is not available"), bare_world)
   /\ exists evs,
        events (snd (IdleMonitor.get_monitor_from 0 (Scenario.A :: [Scenario.C]) ∅
                       (start bare_world)))
        = events (start bare_world) ++ evs
        /\ count_queries 0 evs = 0%nat)
  /\ (discarded ∅ Scenario.B (world (start bare_world)) bare_world true
      /\ exists e,
           is_Exception e = true
           /\ IdleMonitor.get_monitor_from 0 (Scenario.B :: [Scenario.C]) ∅ (start bare_world)
              = IdleMonitor.get_monitor_from 1 [Scenario.C] ∅
                  {| world := bare_world;
                     events := events (start bare_world)
                                 ++ discard_events 0 (cls_name Scenario.B) true e |}).
Proof.
  split.
  - split; [reflexivity |].
    exact (proj1 (discarded_candidate_is_passed_over ∅ 0%nat Scenario.A [Scenario.C]
                    (start bare_world))
             (RuntimeError "A is not available") bare_world eq_refl _ _ eq_refl).
  - assert (H : discarded ∅ Scenario.B (world (start bare_world)) bare_world true).
    { eapply discarded_probe; reflexivity. }
    split; [exact H |].
    exact (proj2 (discarded_candidate_is_passed_over ∅ 0%nat Scenario.B [Scenario.C]
                    (start bare_world))
             bare_world true H).
Defined.

(** C3, as stated, fails. [Kq] constructs and its probe query is
    interrupted: [KeyboardInterrupt] is not an instance of [Exception],
    the handler lets it by, and the search ends there with the
    interrupt; [C], which works, is never constructed. *)
Lemma interrupted_probe_ends_the_search :
  cls_init Scenario.Kq ∅ bare_world
  = (Ok {| idle_threshold := 120; attrs := NoAttrs |}, bare_world)
  /\ cls_get_idle_time Scenario.Kq {| idle_threshold := 120; attrs := NoAttrs |} bare_world
     = (Raise KeyboardInterrupt, bare_world)
  /\ IdleMonitor.get_monitor [Scenario.Kq; Scenario.C] ∅ (start bare_world)
     = (Raise KeyboardInterrupt,
        {| world := bare_world; events := [EvConstruct 0 "Kq"; EvQuery 0 "Kq"] |})
  /\ IdleMonitor.get_monitor [Scenario.Kq; Scenario.C] ∅ (start bare_world)
     <> IdleMonitor.get_monitor_from 1 [Scenario.C] ∅
          {| world := bare_world;
             events := discard_events 0 "Kq" true KeyboardInterrupt |}.
Proof. repeat split; try reflexivity. discriminate. Qed.

(** The probe-failure half at a concrete candidate: [B] constructs, its
    query throws, and the loop goes on to [C], which wins. *)
Example probe_failure_advances :
  fst (IdleMonitor.get_monitor [Scenario.B; Scenario.C] ∅ (start bare_world))
  = Ok {| idle_threshold := 120; attrs := NoAttrs |} /\
  events (snd (IdleMonitor.get_monitor [Scenario.B; Scenario.C] ∅ (start bare_world)))
  = [EvConstruct 0 "B"; EvQuery 0 "B"; EvWarning "B" (OSError "B cannot be queried");
     EvConstruct 1 "C"; EvQuery 1 "C"; EvInfo "C"].
Proof. split; reflexivity. Qed.

(** ** C4 *)

Lemma float_eq_not_gt t z : float_eq_int t z = true -> float_gt_int t z = false.
Proof.
  unfold float_eq_int, float_gt_int.
  destruct (float_cmp_int t z) as [[ | | ] |]; congruence.
Qed.

Lemma Qcompare_inject_Z a b : (inject_Z a ?= inject_Z b)%Q = (a ?= b).
Proof. unfold Qcompare. simpl. by rewrite !Z.mul_1_r. Qed.

Lemma Qpower_2_pos p : (Qpower 2 (Zpos p) == inject_Z (2 ^ Zpos p))%Q.
Proof. symmetry. apply (Zpower_Qpower 2 (Zpos p)). lia. Qed.

(** The comparison of a float with an int is the comparison of the
    numbers they stand for. *)
Lemma float_cmp_int_value t z q :
  float_value t = Some q -> float_cmp_int t z = Some (q ?= inject_Z z)%Q.
Proof.
  destruct t as [s | s | | s m e]; simpl; try discriminate.
  - intros [= <-]. f_equal. change 0%Q with (inject_Z 0). by rewrite Qcompare_inject_Z.
  - intros [= <-]. f_equal. set (v := if s then Z.neg m else Z.pos m).
    destruct e as [| p | p].
    + simpl. rewrite Z.mul_1_r. rewrite <- (Qcompare_inject_Z v z).
      apply Qcompare_comp; [| reflexivity]. unfold Qeq. simpl. lia.
    + cbn [Z.leb Z.compare]. rewrite <- Qcompare_inject_Z.
      apply Qcompare_comp; [| reflexivity].
      rewrite Qpower_2_pos, <- inject_Z_mult. reflexivity.
    + change (- Z.neg p) with (Z.pos p).
      assert (Hpow : 2 ^ Z.pos p = Z.pos (2 ^ p)) by (by rewrite Pos2Z.inj_pow).
      rewrite Hpow.
      transitivity (Qcompare (v # (2 ^ p)) (inject_Z z));
        [unfold Qcompare; simpl; by rewrite Z.mul_1_r |].
      apply Qcompare_comp; [| reflexivity].
      rewrite (Qmake_Qdiv v (2 ^ p)). unfold Qdiv.
      apply Qmult_comp; [reflexivity |]. apply Qinv_comp.
      rewrite <- Hpow. symmetry. apply Qpower_2_pos.
Qed.

Lemma float_gt_int_value t z q :
  float_value t = Some q -> (float_gt_int t z = true <-> (inject_Z z < q)%Q).
Proof.
  intros Hv. unfold float_gt_int. rewrite (float_cmp_int_value t z q Hv).
  rewrite Qlt_alt, <- (Qcompare_antisym q (inject_Z z)).
  destruct (q ?= inject_Z z)%Q; simpl; split; congruence.
Qed.

Lemma float_eq_int_value t z q :
  float_value t = Some q -> (float_eq_int t z = true <-> (q == inject_Z z)%Q).
Proof.
  intros Hv. unfold float_eq_int. rewrite (float_cmp_int_value t z q Hv).
  rewrite Qeq_alt. destruct (q ?= inject_Z z)%Q; split; congruence.
Qed.

(** C4. Whatever [get_idle_time] returns, [is_idle] answers whether the
    number returned is greater than [idle_threshold]: for a returned
    float that stands for the number [seconds], [is_idle] is true exactly
    when [idle_threshold < seconds], so a value equal to the threshold is
    not idle; plus infinity is idle, minus infinity and NaN are not. *)
Theorem is_idle_iff_above_threshold cls self w t w' :
  cls_get_idle_time cls self w = (Ok t, w') ->
  exists idle,
    IdleMonitor.is_idle cls self w = (Ok idle, w')
    /\ (forall seconds,
          float_value t = Some seconds ->
          (idle = true <-> (inject_Z (idle_threshold self) < seconds)%Q)
          /\ ((seconds == inject_Z (idle_threshold self))%Q -> idle = false))
    /\ (t = S754_infinity false -> idle = true)
    /\ (t = S754_infinity true \/ t = S754_nan -> idle = false).
Proof.
  intros Hq. exists (float_gt_int t (idle_threshold self)).
  split; [unfold IdleMonitor.is_idle, bind, ret; by rewrite Hq |].
  split; [| split].
  - intros seconds Hv. split; [by apply float_gt_int_value |].
    intros Heq. apply float_eq_not_gt. by apply (float_eq_int_value t _ seconds).
  - by intros ->.
  - by intros [-> | ->].
Qed.

Lemma is_idle_iff_above_threshold_witness :
  (cls_get_idle_time Scenario.D {| idle_threshold := 50; attrs := NoAttrs |} bare_world
   = (Ok Scenario.seconds_50, bare_world)
   /\ IdleMonitor.is_idle Scenario.D {| idle_threshold := 50; attrs := NoAttrs |} bare_world
      = (Ok false, bare_world))
  /\ (cls_get_idle_time Scenario.C {| idle_threshold := 120; attrs := NoAttrs |} bare_world
      = (Ok Scenario.seconds_300, bare_world)
      /\ IdleMonitor.is_idle Scenario.C {| idle_threshold := 120; attrs := NoAttrs |} bare_world
         = (Ok true, bare_world)).
Proof.
  split; (split; [reflexivity |]).
  - destruct (is_idle_iff_above_threshold Scenario.D
                {| idle_threshold := 50; attrs := NoAttrs |}
                bare_world Scenario.seconds_50 bare_world eq_refl)
      as (idle & Hidle & Hvalue & _).
    destruct (Hvalue _ eq_refl) as [_ Hboundary].
    rewrite Hidle. f_equal. f_equal. apply Hboundary. reflexivity.
  - destruct (is_idle_iff_above_threshold Scenario.C
                {| idle_threshold := 120; attrs := NoAttrs |}
                bare_world Scenario.seconds_300 bare_world eq_refl)
      as (idle & Hidle & Hvalue & _).
    destruct (Hvalue _ eq_refl) as [Habove _].
    rewrite Hidle. f_equal. f_equal. apply Habove. reflexivity.
Defined.

(** A failing query makes [is_idle] fail the same way. *)
Lemma is_idle_propagates cls self w e w' :
  cls_get_idle_time cls self w = (Raise e, w') ->
  IdleMonitor.is_idle cls self w = (Raise e, w').
Proof. intros Hq. unfold IdleMonitor.is_idle, bind. by rewrite Hq. Qed.

(** 50.0 against a threshold of 120 is not idle, and neither is 50.0
    against a threshold of exactly 50. *)
Example is_idle_below_and_at_threshold :
  IdleMonitor.is_idle Scenario.D {| idle_threshold := 120; attrs := NoAttrs |} bare_world
  = (Ok false, bare_world) /\
  IdleMonitor.is_idle Scenario.D {| idle_threshold := 50; attrs := NoAttrs |} bare_world
  = (Ok false, bare_world) /\
  IdleMonitor.is_idle Scenario.D {| idle_threshold := 49; attrs := NoAttrs |} bare_world
  = (Ok true, bare_world).
Proof. repeat split; reflexivity. Qed.

(** ** The session-bus backend: C6, C7, C9 *)

Lemma connection_closed_after_close k w :
  connection_open k (set_connections (fun cs => <[k := false]> cs) w) = false.
Proof.
  unfold connection_open. simpl.
  destruct (decide (k < length (connections w))%nat) as [Hlt | Hge].
  - by rewrite list_lookup_insert_eq.
  - rewrite list_insert_ge by lia. by rewrite lookup_ge_None_2 by lia.
Qed.

(** What [get_idle_time] does when the call on the bus raises
    [DBusErrorResponse]: close, then raise. *)
Lemma gnome_query_on_bus_error self connection message name w w1 :
  attrs self = GnomeAttrs connection message ->
  jeepney.send_and_get_reply connection message w = (Raise (DBusErrorResponse name), w1) ->
  GnomeWaylandIdleMonitor.get_idle_time self w
  = (Raise (if String.eqb name ServiceUnknown
            then RuntimeErrorFrom "Gnome Mutter is not available, is gnome running?"
                   (DBusErrorResponse name)
            else DBusErrorResponse name),
     set_connections (fun cs => <[connection := false]> cs) w1).
Proof.
  intros Hattrs Hsend. unfold GnomeWaylandIdleMonitor.get_idle_time.
  rewrite Hattrs. unfold bind at 1. rewrite Hsend.
  unfold bind, jeepney.close, modify, raise. fold ServiceUnknown.
  destruct (String.eqb name ServiceUnknown); reflexivity.
Qed.

(** C6. When the idle-monitor service is unknown on the bus, the
    session-bus backend's [get_idle_time] raises the descriptive error
    that says Mutter is not available, and in the state in which it is
    raised the backend's connection is closed. *)
Theorem gnome_service_unknown_closes_then_reports self connection message w :
  attrs self = GnomeAttrs connection message ->
  connection_open connection w = true ->
  bus_answer w message = ErrorReply ServiceUnknown ->
  exists w',
    GnomeWaylandIdleMonitor.get_idle_time self w
    = (Raise (RuntimeErrorFrom "Gnome Mutter is not available, is gnome running?"
                (DBusErrorResponse ServiceUnknown)), w')
    /\ connection_open connection w' = false.
Proof.
  intros Hattrs Hopen Hans.
  assert (Hsend : jeepney.send_and_get_reply connection message w
                  = (Raise (DBusErrorResponse ServiceUnknown), w)).
  { unfold jeepney.send_and_get_reply. by rewrite Hopen, Hans. }
  eexists. split.
  - rewrite (gnome_query_on_bus_error _ _ _ _ _ _ Hattrs Hsend). reflexivity.
  - apply connection_closed_after_close.
Qed.

(** C9. Whatever the name of the bus error, the connection is closed in
    the state in which the error leaves [get_idle_time]; an error other
    than "service unknown" leaves as the very [DBusErrorResponse] that
    was caught. *)
Theorem gnome_any_bus_error_closes_connection self connection message name w :
  attrs self = GnomeAttrs connection message ->
  connection_open connection w = true ->
  bus_answer w message = ErrorReply name ->
  exists e w',
    GnomeWaylandIdleMonitor.get_idle_time self w = (Raise e, w')
    /\ connection_open connection w' = false
    /\ (name = ServiceUnknown ->
        e = RuntimeErrorFrom "Gnome Mutter is not available, is gnome running?"
              (DBusErrorResponse name))
    /\ (name <> ServiceUnknown -> e = DBusErrorResponse name).
Proof.
  intros Hattrs Hopen Hans.
  assert (Hsend : jeepney.send_and_get_reply connection message w
                  = (Raise (DBusErrorResponse name), w)).
  { unfold jeepney.send_and_get_reply. by rewrite Hopen, Hans. }
  do 2 eexists. split; [| split; [| split]].
  - apply (gnome_query_on_bus_error _ _ _ _ _ _ Hattrs Hsend).
  - apply connection_closed_after_close.
  - intros ->. by rewrite String.eqb_refl.
  - intros Hne. apply String.eqb_neq in Hne. by rewrite Hne.
Qed.

(** What a successful [__init__] of the session-bus backend has done: the
    desktop is GNOME, one connection was opened, the message is the
    [GetIdletime] call. *)
Lemma gnome_init_ok kwargs w self w' :
  GnomeWaylandIdleMonitor.init kwargs w = (Ok self, w') ->
  str_contains "GNOME" (default "" (environ w !! "XDG_CURRENT_DESKTOP")) = true
  /\ attrs self = GnomeAttrs (length (connections w)) GetIdletime_call
  /\ w' = set_connections (fun cs => cs ++ [true]) w.
Proof.
  unfold GnomeWaylandIdleMonitor.init, IdleMonitor.init, bind, gets, ret, raise,
    jeepney.connect_and_authenticate.
  destruct (decide (delete "idle_threshold" kwargs = ∅)); [| discriminate].
  destruct (str_contains "GNOME" _); simpl; [| discriminate].
  destruct (session_bus_down w); [discriminate |].
  intros [= <- <-]. auto.
Qed.

(** C7. The session-bus backend's constructor looks for GNOME in the
    desktop identifier before it touches the bus: when the identifier is
    absent it raises and leaves the machine as it found it, no connection
    opened; a connection is opened, and the [GetIdletime] message
    prepared, only when the identifier is present. *)
Theorem gnome_init_checks_desktop_before_connecting kwargs w r w' :
  GnomeWaylandIdleMonitor.init kwargs w = (r, w') ->
  (str_contains "GNOME" (default "" (environ w !! "XDG_CURRENT_DESKTOP")) = false ->
   w' = w /\
   exists e, r = Raise e /\
             (delete "idle_threshold" kwargs = ∅ -> e = RuntimeError "Gnome is not running."))
  /\ (connections w' <> connections w ->
      str_contains "GNOME" (default "" (environ w !! "XDG_CURRENT_DESKTOP")) = true)
  /\ (forall self, r = Ok self ->
      str_contains "GNOME" (default "" (environ w !! "XDG_CURRENT_DESKTOP")) = true
      /\ attrs self = GnomeAttrs (length (connections w)) GetIdletime_call
      /\ connections w' = connections w ++ [true]).
Proof.
  intros Hinit. split; [| split].
  - revert Hinit.
    unfold GnomeWaylandIdleMonitor.init, IdleMonitor.init, bind, gets, ret, raise.
    destruct (decide (delete "idle_threshold" kwargs = ∅)) as [Hkw | Hkw].
    + intros Hinit Hno. rewrite Hno in Hinit. simpl in Hinit.
      injection Hinit as <- <-. split; [reflexivity |]. eexists. split; [reflexivity | auto].
    + intros [= <- <-] _. split; [reflexivity |]. eexists. split; [reflexivity |]. done.
  - intros Hchanged.
    destruct (str_contains "GNOME" _) eqn:Hgnome; [reflexivity |].
    exfalso. apply Hchanged. revert Hinit.
    unfold GnomeWaylandIdleMonitor.init, IdleMonitor.init, bind, gets, ret, raise.
    destruct (decide (delete "idle_threshold" kwargs = ∅)).
    + rewrite Hgnome. simpl. by intros [= <- <-].
    + by intros [= <- <-].
  - intros self ->. apply gnome_init_ok in Hinit as (Hgnome & Hattrs & ->).
    repeat split; assumption.
Qed.

Lemma gnome_init_checks_desktop_before_connecting_witness :
  GnomeWaylandIdleMonitor.init ∅ x11_without_xss
  = (Raise (RuntimeError "Gnome is not running."), x11_without_xss) /\
  (str_contains "GNOME" (default "" (environ x11_without_xss !! "XDG_CURRENT_DESKTOP")) = false ->
   x11_without_xss = x11_without_xss /\
   exists e, Raise (A := Instance) (RuntimeError "Gnome is not running.") = Raise e /\
             (delete "idle_threshold" (∅ : Kwargs) = ∅ -> e = RuntimeError "Gnome is not running.")).
Proof.
  split; [reflexivity |].
  exact (proj1 (gnome_init_checks_desktop_before_connecting ∅ x11_without_xss
                  (Raise (RuntimeError "Gnome is not running.")) x11_without_xss eq_refl)).
Defined.

(** In a GNOME session the constructor connects. *)
Example gnome_init_connects answer :
  GnomeWaylandIdleMonitor.init ∅ (gnome_session answer)
  = (Ok {| idle_threshold := 120; attrs := GnomeAttrs 0 GetIdletime_call |},
     set_connections (fun _ => [true]) (gnome_session answer)).
Proof. reflexivity. Qed.

Lemma gnome_service_unknown_closes_then_reports_witness :
  let w := set_connections (fun _ => [true]) (gnome_session (ErrorReply ServiceUnknown)) in
  let self := {| idle_threshold := 120; attrs := GnomeAttrs 0 GetIdletime_call |} in
  connection_open 0 w = true /\
  exists w',
    GnomeWaylandIdleMonitor.get_idle_time self w
    = (Raise (RuntimeErrorFrom "Gnome Mutter is not available, is gnome running?"
                (DBusErrorResponse ServiceUnknown)), w')
    /\ connection_open 0 w' = false.
Proof.
  split; [reflexivity |].
  exact (gnome_service_unknown_closes_then_reports
           {| idle_threshold := 120; attrs := GnomeAttrs 0 GetIdletime_call |}
           0%nat GetIdletime_call
           (set_connections (fun _ => [true]) (gnome_session (ErrorReply ServiceUnknown)))
           eq_refl eq_refl eq_refl).
Defined.

Lemma gnome_any_bus_error_closes_connection_witness :
  let w := set_connections (fun _ => [true])
             (gnome_session (ErrorReply "org.freedesktop.DBus.Error.NoReply")) in
  let self := {| idle_threshold := 120; attrs := GnomeAttrs 0 GetIdletime_call |} in
  connection_open 0 w = true /\
  exists e w',
    GnomeWaylandIdleMonitor.get_idle_time self w = (Raise e, w')
    /\ connection_open 0 w' = false
    /\ ("org.freedesktop.DBus.Error.NoReply" = ServiceUnknown ->
        e = RuntimeErrorFrom "Gnome Mutter is not available, is gnome running?"
              (DBusErrorResponse "org.freedesktop.DBus.Error.NoReply"))
    /\ ("org.freedesktop.DBus.Error.NoReply" <> ServiceUnknown ->
        e = DBusErrorResponse "org.freedesktop.DBus.Error.NoReply").
Proof.
  split; [reflexivity |].
  exact (gnome_any_bus_error_closes_connection
           {| idle_threshold := 120; attrs := GnomeAttrs 0 GetIdletime_call |}
           0%nat GetIdletime_call "org.freedesktop.DBus.Error.NoReply"
           (set_connections (fun _ => [true])
              (gnome_session (ErrorReply "org.freedesktop.DBus.Error.NoReply")))
           eq_refl eq_refl eq_refl).
Defined.

(** A failure that is not a bus error leaves [get_idle_time] as it is,
    past the handler: the connection stays open. *)
Example gnome_transport_failure_keeps_connection :
  let w := set_connections (fun _ => [true])
             (gnome_session (TransportFailure (OSError "timed out"))) in
  GnomeWaylandIdleMonitor.get_idle_time
    {| idle_threshold := 120; attrs := GnomeAttrs 0 GetIdletime_call |} w
  = (Raise (OSError "timed out"), w)
  /\ connection_open 0 w = true.
Proof. split; reflexivity. Qed.

(** ** C5 *)

Lemma open_count_app hs1 hs2 :
  open_count (hs1 ++ hs2) = (open_count hs1 + open_count hs2)%nat.
Proof. unfold open_count. by rewrite filter_app, length_app. Qed.

(** Opening a handle and closing it again leaves as many open as before. *)
Lemma open_count_open_close hs :
  open_count (<[length hs := false]> (hs ++ [true])) = open_count hs.
Proof.
  rewrite insert_app_r_alt by lia. rewrite Nat.sub_diag. simpl.
  rewrite open_count_app. unfold open_count at 2. simpl. lia.
Qed.

(** C5, as the code has it. The selector releases nothing itself; what
    is released is what the backend releases. For the session-bus
    backend discarded because its probe query met a bus error, that is
    everything: the loop moves on in a world where the connection the
    candidate opened is closed and nothing more is held than before the
    candidate was tried. *)
Theorem gnome_discarded_on_bus_error_holds_nothing kwargs i rest p self w1 name :
  GnomeWaylandIdleMonitor.init kwargs (world p) = (Ok self, w1) ->
  bus_answer (world p) GetIdletime_call = ErrorReply name ->
  exists e w2,
    IdleMonitor.get_monitor_from i (GnomeWaylandIdleMonitor.cls :: rest) kwargs p
    = IdleMonitor.get_monitor_from (S i) rest kwargs
        {| world := w2;
           events := events p ++ discard_events i "GnomeWaylandIdleMonitor" true e |}
    /\ connection_open (length (connections (world p))) w1 = true
    /\ connection_open (length (connections (world p))) w2 = false
    /\ held w2 = held (world p).
Proof.
  intros Hinit Hans.
  destruct (gnome_init_ok _ _ _ _ Hinit) as (_ & Hattrs & Hw1).
  set (k := length (connections (world p))) in *.
  assert (Hopen : connection_open k w1 = true).
  { subst w1. unfold connection_open, k. simpl.
    by rewrite lookup_app_r, Nat.sub_diag by lia. }
  assert (Hsend : jeepney.send_and_get_reply k GetIdletime_call w1
                  = (Raise (DBusErrorResponse name), w1)).
  { unfold jeepney.send_and_get_reply. rewrite Hopen.
    replace (bus_answer w1) with (bus_answer (world p)) by (by subst w1).
    by rewrite Hans. }
  pose proof (gnome_query_on_bus_error _ _ _ _ _ _ Hattrs Hsend) as Hq.
  do 2 eexists. split; [| split; [| split]].
  - apply (step_probe_fails kwargs i GnomeWaylandIdleMonitor.cls rest p self w1 _ _ Hinit Hq).
    by destruct (String.eqb name ServiceUnknown).
  - exact Hopen.
  - apply connection_closed_after_close.
  - subst w1. unfold held. simpl. unfold k. by rewrite open_count_open_close.
Qed.

Lemma gnome_discarded_on_bus_error_holds_nothing_witness :
  let p := start (gnome_session (ErrorReply ServiceUnknown)) in
  exists e w2,
    IdleMonitor.get_monitor_from 0 (GnomeWaylandIdleMonitor.cls :: [X11IdleMonitor.cls]) ∅ p
    = IdleMonitor.get_monitor_from 1 [X11IdleMonitor.cls] ∅
        {| world := w2;
           events := events p ++ discard_events 0 "GnomeWaylandIdleMonitor" true e |}
    /\ connection_open (length (connections (world p)))
         (set_connections (fun _ => [true]) (gnome_session (ErrorReply ServiceUnknown))) = true
    /\ connection_open (length (connections (world p))) w2 = false
    /\ held w2 = held (world p).
Proof.
  exact (gnome_discarded_on_bus_error_holds_nothing ∅ 0%nat [X11IdleMonitor.cls]
           (start (gnome_session (ErrorReply ServiceUnknown)))
           {| idle_threshold := 120; attrs := GnomeAttrs 0 GetIdletime_call |}
           (set_connections (fun _ => [true]) (gnome_session (ErrorReply ServiceUnknown)))
           ServiceUnknown eq_refl eq_refl).
Defined.

(** C5, as stated, fails. On a machine with libX11 but without libXss the
    display-extension backend opens a display and then fails to construct;
    the selector discards it, raises, and the display is still open. *)
Lemma x11_display_stays_open_after_discard :
  let run := IdleMonitor.get_monitor (registry (module_body false)) ∅ (start x11_without_xss) in
  fst run = Raise (RuntimeError "Could not find a working monitor.")
  /\ events (snd run)
     = [EvConstruct 0 "GnomeWaylandIdleMonitor";
        EvWarning "GnomeWaylandIdleMonitor" (RuntimeError "Gnome is not running.");
        EvConstruct 1 "X11IdleMonitor";
        EvWarning "X11IdleMonitor" (OSError "Could not find library `Xss`")]
  /\ held x11_without_xss = (0%nat, 0%nat, 0%nat)
  /\ held (world (snd run)) = (0%nat, 1%nat, 0%nat)
  /\ display_open 0 (world (snd run)) = true.
Proof. vm_compute. repeat split; reflexivity. Qed.

(** The same for a session-bus candidate whose probe query fails with
    something other than a bus error: its connection stays open while the
    next candidate is tried. *)
Example gnome_connection_stays_open_after_discard :
  let run := IdleMonitor.get_monitor (registry (module_body false)) ∅
               (start (gnome_session (TransportFailure (OSError "timed out")))) in
  fst run = Raise (RuntimeError "Could not find a working monitor.")
  /\ held (world (snd run)) = (1%nat, 0%nat, 0%nat).
Proof. vm_compute. split; reflexivity. Qed.

(** ** C10: the registry *)

(** Case analysis helpers for the walks up the class table. *)
Section Walks.

Variable cs : list ClassObj.
Hypothesis bases_before :
  forall id co b, cs !! id = Some co -> co_base co = Some b -> (b < id)%nat.




(** A later class statement does not change the lookups of an earlier
    class. *)
Lemma hook_reaches_app co fuel : forall id,
  (id < length cs)%nat ->
  hook_reaches (cs ++ [co]) fuel id = hook_reaches cs fuel id.
Proof.
  induction fuel as [| fuel IH]; intros id Hid; [reflexivity |].
  simpl. destruct (Nat.eqb id 0); [reflexivity |].
  rewrite lookup_app_l by exact Hid.
  destruct (cs !! id) as [co' |] eqn:Hco; [| reflexivity].
  destruct (co_hook co') as [[|] |]; try reflexivity;
    destruct (co_base co') as [b |] eqn:Hb; try reflexivity;
    pose proof (bases_before id co' b Hco Hb) as Hlt; apply IH; lia.
Qed.

Lemma owner_app co fuel : forall id,
  (id < length cs)%nat ->
  owner (cs ++ [co]) fuel id = owner cs fuel id.
Proof.
  induction fuel as [| fuel IH]; intros id Hid; [reflexivity |].
  simpl. rewrite lookup_app_l by exact Hid.
  destruct (cs !! id) as [co' |] eqn:Hco; [| reflexivity].
  destruct (co_binds_subclasses co'); [reflexivity |].
  destruct (co_base co') as [b |] eqn:Hb; [| reflexivity].
  pose proof (bases_before id co' b Hco Hb) as Hlt. apply IH. lia.
Qed.

Lemma derives_fuel_app co fuel : forall id,
  (id < length cs)%nat ->
  derives_fuel (cs ++ [co]) fuel id = derives_fuel cs fuel id.
Proof.
  induction fuel as [| fuel IH]; intros id Hid; [reflexivity |].
  simpl. rewrite lookup_app_l by exact Hid.
  destruct (cs !! id) as [co' |] eqn:Hco; [| reflexivity].
  destruct (co_base co') as [b |] eqn:Hb; [| reflexivity].
  rewrite IH; [reflexivity |].
  pose proof (bases_before id co' b Hco Hb) as Hlt. lia.
Qed.

Lemma hook_runs_app co id :
  (id < length cs)%nat -> hook_runs (cs ++ [co]) id = hook_runs cs id.
Proof.
  intros Hid. unfold hook_runs. rewrite lookup_app_l by exact Hid.
  destruct (cs !! id) as [co' |] eqn:Hco; [| reflexivity].
  destruct (co_base co') as [b |] eqn:Hb; [| reflexivity].
  pose proof (bases_before id co' b Hco Hb) as Hlt. apply hook_reaches_app. lia.
Qed.

Lemma registers_app co id :
  (id < length cs)%nat -> registers (cs ++ [co]) id = registers cs id.
Proof.
  intros Hid. unfold registers. by rewrite hook_runs_app, owner_app.
Qed.

End Walks.

Lemma subclasses_ok st :
  registry_ok st ->
  subclasses st = List.filter (registers (classes st)) (seq 0 (length (classes st))).
Proof. intros [_ H]. unfold subclasses. by rewrite H. Qed.

(** The table a class statement leaves is well-formed. *)
Lemma table_ok_app cs co :
  table_ok cs ->
  (forall b, co_base co = Some b -> (b < length cs)%nat) ->
  table_ok (cs ++ [co]).
Proof.
  intros [Hzero Hbases] Hbase. split.
  - rewrite lookup_app_l; [exact Hzero |]. by apply lookup_lt_Some in Hzero.
  - intros id co' b Hco Hb.
    destruct (decide (id < length cs)%nat) as [Hlt | Hge].
    + rewrite lookup_app_l in Hco by exact Hlt. eauto.
    + rewrite lookup_app_r in Hco by lia.
      destruct (id - length cs)%nat eqn:Hd; [| by destruct n].
      simpl in Hco. injection Hco as <-. specialize (Hbase b Hb). lia.
Qed.

(** What a class statement does to [IdleMonitor]'s list: it appends the
    new class exactly when the new class registers. *)
Lemma class_stmt_step stmt st :
  registry_ok st ->
  let id := length (classes st) in
  let co := {| co_class := stmt_class stmt; co_base := stmt_base stmt;
               co_binds_subclasses := match stmt_subclasses stmt with
                                      | Some _ => true
                                      | None => false
                                      end;
               co_hook := stmt_hook stmt |} in
  let st' := snd (class_stmt stmt st) in
  (st' = st
   \/ (classes st' = classes st ++ [co]
       /\ table_ok (classes st')
       /\ lists st' !! 0%nat
          = Some (subclasses st
                    ++ (if registers (classes st ++ [co]) id then [id] else []))))
  /\ ((forall b, stmt_base stmt = Some b -> (b < id)%nat) ->
      subclasses st'
      = subclasses st ++ (if registers (classes st ++ [co]) id then [id] else [])).
Proof.
  intros Hok id co st'. pose proof Hok as [[Hzero Hbases] Hlist].
  assert (Hpos : (0 < id)%nat) by (by apply lookup_lt_Some in Hzero).
  assert (Hsub : lists st !! 0%nat = Some (subclasses st))
    by (unfold subclasses; by rewrite Hlist).
  set (bound := match stmt_subclasses stmt with
                | Some l => <[id := l]> (lists st)
                | None => lists st
                end).
  assert (Hbound : bound !! 0%nat = Some (subclasses st)).
  { subst bound. destruct (stmt_subclasses stmt); [| exact Hsub].
    rewrite lookup_insert_ne by lia. exact Hsub. }
  subst st'. unfold class_stmt. fold id. fold co. fold bound.
  destruct (match stmt_base stmt with Some b => Nat.ltb b id | None => true end) eqn:Hbase.
  - assert (Hb : forall b, co_base co = Some b -> (b < length (classes st))%nat).
    { intros b Hb. simpl in Hb. rewrite Hb in Hbase. by apply Nat.ltb_lt in Hbase. }
    pose proof (table_ok_app (classes st) co (conj Hzero Hbases) Hb) as Htable.
    unfold registers. destruct (hook_runs (classes st ++ [co]) id) eqn:Hhook.
    + destruct (owner (classes st ++ [co]) (S id) id) as [k |] eqn:Hown.
      * cbn [snd classes lists andb].
        assert (Hl : alter (IdleMonitor.init_subclass id) k bound !! 0%nat
                     = Some (subclasses st
                               ++ (if bool_decide (Some k = Some 0%nat) then [id] else []))).
        { destruct (decide (k = 0%nat)) as [-> | Hk].
          - rewrite bool_decide_eq_true_2 by reflexivity.
            rewrite lookup_alter_eq, Hbound. reflexivity.
          - rewrite bool_decide_eq_false_2 by congruence.
            rewrite lookup_alter_ne by done. rewrite Hbound. by rewrite app_nil_r. }
        split; [right; split; [reflexivity | split; [exact Htable | exact Hl]] |].
        intros _. unfold subclasses at 1. cbn [lists]. by rewrite Hl.
      * cbn [snd andb]. rewrite bool_decide_eq_false_2 by discriminate.
        split; [by left | intros _; by rewrite app_nil_r].
    + cbn [snd classes lists andb]. rewrite app_nil_r.
      split; [right; split; [reflexivity | split; [exact Htable | exact Hbound]] |].
      intros _. unfold subclasses at 1. cbn [lists]. by rewrite Hbound.
  - cbn [snd]. split; [by left |]. intros Hvalid.
    destruct (stmt_base stmt) as [b |]; [| discriminate].
    apply Nat.ltb_ge in Hbase. specialize (Hvalid b eq_refl). lia.
Qed.

Lemma class_stmt_ok stmt st :
  registry_ok st -> registry_ok (snd (class_stmt stmt st)).
Proof.
  intros Hok. destruct (class_stmt_step stmt st Hok) as [[-> | (Hcs & Htable & Hl)] _];
    [exact Hok |].
  split; [exact Htable |]. rewrite Hl, Hcs. f_equal.
  rewrite length_app. simpl length. rewrite Nat.add_1_r, seq_S, List.filter_app.
  simpl. rewrite (subclasses_ok st Hok). f_equal.
  apply List.filter_ext_in. intros id Hin. apply in_seq in Hin.
  symmetry. apply registers_app; [apply Hok | lia].
Qed.

Lemma class_stmts_ok stmts : forall st,
  registry_ok st -> registry_ok (snd (class_stmts stmts st)).
Proof.
  induction stmts as [| stmt rest IH]; intros st Hst; [exact Hst |].
  simpl. unfold bind. pose proof (class_stmt_ok stmt st Hst) as Hstep.
  destruct (class_stmt stmt st) as [[[] | e] st1]; simpl in Hstep.
  - by apply IH.
  - exact Hstep.
Qed.

Lemma class_IdleMonitor_ok : registry_ok class_IdleMonitor.
Proof.
  split; [split |].
  - reflexivity.
  - intros [| id] co b Hco Hb; simpl in Hco.
    + injection Hco as <-. discriminate.
    + discriminate.
  - reflexivity.
Qed.










(** ** C8: the sign of an idle time *)

(** Rounding a non-negative mantissa with sign bit [false] keeps the sign
    bit clear; the lemmas below follow the rounding step by step. *)
Lemma iter_pos_invariant {A} (P : A -> Prop) (f : A -> A) :
  (forall x, P x -> P (f x)) -> forall p x, P x -> P (SpecFloat.iter_pos f p x).
Proof.
  intros Hf. induction p as [p IH | p IH |]; intros x Hx; simpl; auto.
Qed.

Lemma shr_1_nonneg mrs : 0 <= shr_m mrs -> 0 <= shr_m (shr_1 mrs).
Proof.
  destruct mrs as [m r s]. simpl.
  destruct m as [| [p | p |] | p]; simpl; lia.
Qed.

Lemma shr_nonneg mrs e n : 0 <= shr_m mrs -> 0 <= shr_m (fst (shr mrs e n)).
Proof.
  intros Hm. unfold shr. destruct n as [| p | p]; simpl; try exact Hm.
  apply (iter_pos_invariant (fun mrs => 0 <= shr_m mrs)); [apply shr_1_nonneg | exact Hm].
Qed.

Lemma shr_fexp_nonneg m e l : 0 <= m -> 0 <= shr_m (fst (shr_fexp prec emax m e l)).
Proof.
  intros Hm. unfold shr_fexp. apply shr_nonneg.
  destruct l as [| [ | | ]]; exact Hm.
Qed.

Lemma round_nearest_even_nonneg m l : 0 <= m -> 0 <= round_nearest_even m l.
Proof.
  intros Hm. unfold round_nearest_even.
  destruct l as [| [ | | ]]; try destruct (Z.even m); lia.
Qed.

Lemma binary_round_aux_sign_false m e l :
  0 <= m -> sign_false (binary_round_aux prec emax false m e l).
Proof.
  intros Hm. unfold binary_round_aux.
  pose proof (shr_fexp_nonneg m e l Hm) as H1.
  destruct (shr_fexp prec emax m e l) as [mrs' e'] eqn:E1. simpl in H1.
  pose proof (shr_fexp_nonneg _ e' loc_Exact
                (round_nearest_even_nonneg _ (loc_of_shr_record mrs') H1)) as H2.
  destruct (shr_fexp prec emax (round_nearest_even _ _) e' loc_Exact) as [mrs'' e''] eqn:E2.
  simpl in H2.
  destruct (shr_m mrs'') as [| p | p]; simpl.
  - reflexivity.
  - destruct (e'' <=? emax - prec); reflexivity.
  - lia.
Qed.

Lemma SFdiv_sign_false a b :
  0 <= a -> 0 < b ->
  sign_false (SFdiv prec emax (float_of_int_exact a) (float_of_int_exact b)).
Proof.
  intros Ha Hb. destruct b as [| pb | pb]; try lia.
  destruct a as [| pa | pa]; try lia; simpl; [reflexivity |].
  unfold SFdiv_core_binary.
  set (m' := match _ - _ - _ with Z0 => Z.pos pa | Z.pos _ => _ | Z.neg _ => 0 end).
  assert (Hm' : 0 <= m').
  { subst m'. destruct (_ - _ - _); try lia. apply Z.shiftl_nonneg. lia. }
  pose proof (Z.div_pos m' (Z.pos pb) Hm' ltac:(lia)) as Hq.
  unfold Z.div in Hq. destruct (Z.div_eucl m' (Z.pos pb)) as [q r]. simpl in Hq.
  by apply binary_round_aux_sign_false.
Qed.

Lemma sign_false_nonneg f : sign_false f -> float_nonneg f = true.
Proof.
  destruct f as [s | s | | s m e]; simpl; try intros ->; try contradiction; try reflexivity.
  unfold float_nonneg, float_ge_int, float_cmp_int.
  destruct (0 <=? e) eqn:He.
  - apply Z.leb_le in He.
    assert (0 < Z.pos m * 2 ^ e) by (apply Z.mul_pos_pos; [lia | by apply Z.pow_pos_nonneg]).
    by replace (Z.pos m * 2 ^ e ?= 0) with Gt by (symmetry; apply Z.compare_gt_iff; lia).
  - reflexivity.
Qed.

(** Dividing a non-negative int by 1000 gives a non-negative float. *)
Lemma int_truediv_nonneg a f :
  0 <= a -> int_truediv a 1000 = Ok f -> float_nonneg f = true.
Proof.
  intros Ha. unfold int_truediv. simpl Z.eqb. cbv iota.
  pose proof (SFdiv_sign_false a 1000 Ha ltac:(lia)) as Hs.
  destruct (SFdiv prec emax _ _) as [s | s | | s m e] eqn:Hdiv; try discriminate;
    intros [= <-]; by apply sign_false_nonneg.
Qed.

(** The tick-counter backend: non-negative as long as the tick count has
    not fallen behind the tick of the last input. *)
Lemma windows_idle_time_nonneg self w f w' :
  last_input_tick w <= tick_count w ->
  WindowsIdleMonitor.get_idle_time self w = (Ok f, w') ->
  float_nonneg f = true.
Proof.
  intros Hticks. unfold WindowsIdleMonitor.get_idle_time, bind,
    win32api.GetTickCount, win32api.GetLastInputInfo, gets.
  intros [= Hdiv _]. apply (int_truediv_nonneg (tick_count w - last_input_tick w)); [lia | done].
Qed.

(** The session-bus backend: non-negative for every UINT64 the service
    replies with. *)
Lemma gnome_idle_time_nonneg self connection message idle_time rest w f w' :
  attrs self = GnomeAttrs connection message ->
  bus_answer w message = MethodReturn (idle_time :: rest) ->
  uint64 idle_time ->
  GnomeWaylandIdleMonitor.get_idle_time self w = (Ok f, w') ->
  float_nonneg f = true.
Proof.
  intros Hattrs Hans [Hlo _]. unfold GnomeWaylandIdleMonitor.get_idle_time.
  rewrite Hattrs. unfold bind, jeepney.send_and_get_reply.
  destruct (connection_open connection w); [| discriminate].
  rewrite Hans. destruct (int_truediv idle_time 1000) as [q | e] eqn:Hdiv.
  - intros [= <- _]. by apply (int_truediv_nonneg idle_time).
  - destruct e; try discriminate.
    unfold jeepney.close, modify, raise. destruct (String.eqb _ _); discriminate.
Qed.

(** The display-extension backend: non-negative, the [idle] field being
    a [c_ulong]. *)
Lemma x11_idle_time_nonneg self w f w' :
  Forall (fun v => 0 <= v) (xss_buffers w) ->
  X11IdleMonitor.get_idle_time self w = (Ok f, w') ->
  float_nonneg f = true.
Proof.
  intros Hbuf. unfold X11IdleMonitor.get_idle_time.
  destruct (attrs self) as [| | display root_window lib_xss xss_info]; try discriminate.
  unfold bind.
  destruct (ctypes.XScreenSaverQueryInfo display root_window xss_info w) as [r w1] eqn:Hq.
  assert (Hbuf1 : Forall (fun v => 0 <= v) (xss_buffers w1)).
  { revert Hq. unfold ctypes.XScreenSaverQueryInfo.
    destruct display as [d |]; [destruct (display_open d w && xss_present w) |];
      intros [= <- <-]; try exact Hbuf.
    simpl. apply Forall_insert; [exact Hbuf |].
    unfold ctypes.c_ulong, ctypes.c_ulong_bits. apply Z.mod_pos_bound. lia. }
  destruct r as [status | e]; [| discriminate].
  unfold ctypes.contents_idle. destruct (xss_buffers w1 !! xss_info) as [idle |] eqn:Hidle;
    [| discriminate].
  intros [= Hdiv _]. apply (int_truediv_nonneg idle); [| exact Hdiv].
  by apply (Forall_lookup_1 _ _ _ _ Hbuf1 Hidle).
Qed.

(** A freshly constructed display-extension monitor reports a
    non-negative idle time, whatever the machine. *)
Lemma x11_buffers_after_init kwargs w self w' :
  Forall (fun v => 0 <= v) (xss_buffers w) ->
  X11IdleMonitor.init kwargs w = (Ok self, w') ->
  Forall (fun v => 0 <= v) (xss_buffers w').
Proof.
  intros Hbuf. unfold X11IdleMonitor.init, IdleMonitor.init, X11IdleMonitor.load_lib,
    ctypes.find_library, ctypes.LoadLibrary, ctypes.XOpenDisplay, ctypes.XDefaultRootWindow,
    ctypes.XScreenSaverAllocInfo, bind, gets, ret, raise.
  destruct (decide (delete "idle_threshold" kwargs = ∅)); [| discriminate].
  destruct (library_paths w !! "X11") as [p11 |]; [| discriminate].
  destruct (decide (p11 ∈ unloadable w)); [discriminate |].
  destruct (x_server_up w); simpl.
  - destruct (library_paths w !! "Xss") as [pss |]; [| discriminate].
    destruct (decide (pss ∈ _)); [discriminate |].
    intros [= _ <-]. simpl. apply Forall_app. split; [exact Hbuf |].
    constructor; [| constructor].
    unfold ctypes.c_ulong, ctypes.c_ulong_bits. apply Z.mod_pos_bound. lia.
  - destruct (library_paths w !! "Xss") as [pss |]; [| discriminate].
    destruct (decide (pss ∈ _)); [discriminate |].
    intros [= _ <-]. simpl. apply Forall_app. split; [exact Hbuf |].
    constructor; [| constructor].
    unfold ctypes.c_ulong, ctypes.c_ulong_bits. apply Z.mod_pos_bound. lia.
Qed.

(** C8 fails for the tick-counter backend. Both tick counts are DWORDs;
    after the counter has wrapped, the tick of the last input is the
    larger one, the difference is taken on unbounded ints, and the idle
    time comes out negative: -4294965.796 seconds. The selector accepts
    the monitor all the same. *)
Theorem windows_idle_time_negative_after_wrap :
  let self := {| idle_threshold := 120; attrs := NoAttrs |} in
  let seconds := S754_finite true 4611684407814652 (-30) in
  dword (tick_count windows_after_wrap)
  /\ dword (last_input_tick windows_after_wrap)
  /\ WindowsIdleMonitor.get_idle_time self windows_after_wrap = (Ok seconds, windows_after_wrap)
  /\ float_nonneg seconds = false
  /\ float_lt_int seconds (-4294965) = true
  /\ fst (IdleMonitor.get_monitor (registry (module_body true)) ∅ (start windows_after_wrap))
     = Ok self.
Proof.
  repeat split; try reflexivity; simpl; lia.
Qed.

(** ** The selector's scenarios, end to end *)

(** registry = [A (fails construct), B (constructs, query throws),
    C (constructs, query returns 300.0)], threshold 120: [C] is selected,
    it is idle, and its idle time is 300.0. *)
Example scenario_A_B_C :
  let kwargs : Kwargs := {[ "idle_threshold" := 120 ]} in
  exists m p,
    IdleMonitor.get_monitor [Scenario.A; Scenario.B; Scenario.C] kwargs (start bare_world)
    = (Ok m, p)
    /\ IdleMonitor.is_idle Scenario.C m (world p) = (Ok true, world p)
    /\ cls_get_idle_time Scenario.C m (world p) = (Ok Scenario.seconds_300, world p)
    /\ int_truediv 300000 1000 = Ok Scenario.seconds_300.
Proof. do 2 eexists. repeat split; reflexivity. Qed.


(** * Further properties of the module *)

(** ** What a result of [get_monitor] tells *)

Lemma get_monitor_from_ok_inv kwargs subs : forall i p m p',
  IdleMonitor.get_monitor_from i subs kwargs p = (Ok m, p') ->
  exists pre c post flags w1 w2 t,
    subs = pre ++ c :: post
    /\ all_discarded kwargs pre (world p) w1 flags
    /\ cls_init c kwargs w1 = (Ok m, w2)
    /\ cls_get_idle_time c m w2 = (Ok t, world p').
Proof.
  induction subs as [| c rest IH]; intros i p m p' Hrun; [discriminate |].
  destruct (cls_init c kwargs (world p)) as [[m0 | e] w1] eqn:Hinit.
  - destruct (cls_get_idle_time c m0 w1) as [[t | e] w2] eqn:Hq.
    + rewrite (step_works _ _ _ _ _ _ _ _ _ Hinit Hq) in Hrun.
      injection Hrun as <- <-.
      exists [], c, rest, [], (world p), w1, t. simpl.
      repeat split; try assumption. constructor.
    + destruct (is_Exception e) eqn:He;
        [| by rewrite (step_probe_escapes _ _ _ _ _ _ _ _ _ Hinit Hq He) in Hrun].
      rewrite (step_probe_fails _ _ _ _ _ _ _ _ _ Hinit Hq He) in Hrun.
      apply IH in Hrun as (pre & c' & post & flags & w1' & w2' & t & -> & Hpre & Hc & Ht).
      simpl in Hpre.
      exists (c :: pre), c', post, (true :: flags), w1', w2', t.
      repeat split; try assumption.
      econstructor; [eapply discarded_probe; eassumption | exact Hpre].
  - destruct (is_Exception e) eqn:He;
      [| by rewrite (step_construct_escapes _ _ _ _ _ _ _ Hinit He) in Hrun].
    rewrite (step_construct_fails _ _ _ _ _ _ _ Hinit He) in Hrun.
    apply IH in Hrun as (pre & c' & post & flags & w1' & w2' & t & -> & Hpre & Hc & Ht).
    simpl in Hpre.
    exists (c :: pre), c', post, (false :: flags), w1', w2', t.
    repeat split; try assumption.
    econstructor; [eapply discarded_construct; eassumption | exact Hpre].
Qed.

(** An instance comes out of [get_monitor] only as the first working
    candidate's: the registry splits around the class that constructed
    it, every class before it failed, and its own probe query answered. *)
Theorem get_monitor_ok_inv kwargs subs p m p' :
  IdleMonitor.get_monitor subs kwargs p = (Ok m, p') ->
  exists pre c post flags w1 w2 t,
    subs = pre ++ c :: post
    /\ all_discarded kwargs pre (world p) w1 flags
    /\ cls_init c kwargs w1 = (Ok m, w2)
    /\ cls_get_idle_time c m w2 = (Ok t, world p').
Proof. apply get_monitor_from_ok_inv. Qed.

Lemma get_monitor_ok_inv_witness :
  exists pre c post flags w1 w2 t,
    [Scenario.A; Scenario.C; Scenario.D] = pre ++ c :: post
    /\ all_discarded ∅ pre (world (start bare_world)) w1 flags
    /\ cls_init c ∅ w1 = (Ok {| idle_threshold := 120; attrs := NoAttrs |}, w2)
    /\ cls_get_idle_time c {| idle_threshold := 120; attrs := NoAttrs |} w2
       = (Ok t, world {| world := bare_world;
                         events := [EvConstruct 0 "A";
                                    EvWarning "A" (RuntimeError "A is not available");
                                    EvConstruct 1 "C"; EvQuery 1 "C"; EvInfo "C"] |}).
Proof.
  exact (get_monitor_ok_inv ∅ [Scenario.A; Scenario.C; Scenario.D] (start bare_world)
           _ _ eq_refl).
Defined.

(** What can leave [get_monitor] as an exception. Either it is the
    [RuntimeError] of [get_monitor] itself, and then every candidate of
    the registry failed with an instance of [Exception]; or it is an
    exception that is not an instance of [Exception], raised by the
    constructor or the probe query of one candidate after every
    candidate before it had failed. A candidate's failure that is an
    instance of [Exception] is never passed on. *)
Theorem get_monitor_raise_inv kwargs subs : forall i p e p',
  IdleMonitor.get_monitor_from i subs kwargs p = (Raise e, p') ->
  (e = RuntimeError "Could not find a working monitor."
   /\ exists flags, all_discarded kwargs subs (world p) (world p') flags)
  \/ (is_Exception e = false
      /\ exists pre c post flags w1,
           subs = pre ++ c :: post
           /\ all_discarded kwargs pre (world p) w1 flags
           /\ (cls_init c kwargs w1 = (Raise e, world p')
               \/ exists m w2,
                    cls_init c kwargs w1 = (Ok m, w2)
                    /\ cls_get_idle_time c m w2 = (Raise e, world p'))).
Proof.
  induction subs as [| c rest IH]; intros i p e p' Hrun.
  - cbn in Hrun. injection Hrun as <- <-. left. split; [reflexivity |].
    exists []. constructor.
  - destruct (cls_init c kwargs (world p)) as [[m0 | e0] w1] eqn:Hinit.
    + destruct (cls_get_idle_time c m0 w1) as [[t | e0] w2] eqn:Hq.
      * rewrite (step_works _ _ _ _ _ _ _ _ _ Hinit Hq) in Hrun. discriminate.
      * destruct (is_Exception e0) eqn:He.
        -- rewrite (step_probe_fails _ _ _ _ _ _ _ _ _ Hinit Hq He) in Hrun.
           assert (Hd : discarded kwargs c (world p) w2 true)
             by (eapply discarded_probe; eassumption).
           apply IH in Hrun as [(-> & flags & Hall)
                               | (Hne & pre & c' & post & flags & w1' & -> & Hpre & Hc)];
             cbn [world] in *.
           ++ left. split; [reflexivity |]. exists (true :: flags).
              econstructor; eassumption.
           ++ right. split; [exact Hne |].
              exists (c :: pre), c', post, (true :: flags), w1'.
              split; [reflexivity |]. split; [econstructor; eassumption | exact Hc].
        -- rewrite (step_probe_escapes _ _ _ _ _ _ _ _ _ Hinit Hq He) in Hrun.
           injection Hrun as <- <-. right. split; [exact He |].
           exists [], c, rest, [], (world p). split; [reflexivity |].
           split; [constructor |]. right. by exists m0, w1.
    + destruct (is_Exception e0) eqn:He.
      * rewrite (step_construct_fails _ _ _ _ _ _ _ Hinit He) in Hrun.
        assert (Hd : discarded kwargs c (world p) w1 false)
          by (eapply discarded_construct; eassumption).
        apply IH in Hrun as [(-> & flags & Hall)
                            | (Hne & pre & c' & post & flags & w1' & -> & Hpre & Hc)];
          cbn [world] in *.
        -- left. split; [reflexivity |]. exists (false :: flags).
           econstructor; eassumption.
        -- right. split; [exact Hne |].
           exists (c :: pre), c', post, (false :: flags), w1'.
           split; [reflexivity |]. split; [econstructor; eassumption | exact Hc].
      * rewrite (step_construct_escapes _ _ _ _ _ _ _ Hinit He) in Hrun.
        injection Hrun as <- <-. right. split; [exact He |].
        exists [], c, rest, [], (world p). split; [reflexivity |].
        split; [constructor |]. by left.
Qed.

Lemma get_monitor_raise_inv_witness :
  (KeyboardInterrupt = RuntimeError "Could not find a working monitor."
   /\ exists flags,
        all_discarded ∅ [Scenario.A; Scenario.Kq; Scenario.C] (world (start bare_world))
          bare_world flags)
  \/ (is_Exception KeyboardInterrupt = false
      /\ exists pre c post flags w1,
           [Scenario.A; Scenario.Kq; Scenario.C] = pre ++ c :: post
           /\ all_discarded ∅ pre (world (start bare_world)) w1 flags
           /\ (cls_init c ∅ w1 = (Raise KeyboardInterrupt, bare_world)
               \/ exists m w2,
                    cls_init c ∅ w1 = (Ok m, w2)
                    /\ cls_get_idle_time c m w2 = (Raise KeyboardInterrupt, bare_world))).
Proof.
  exact (get_monitor_raise_inv ∅ [Scenario.A; Scenario.Kq; Scenario.C] 0%nat
           (start bare_world) KeyboardInterrupt
           {| world := bare_world;
              events := [EvConstruct 0 "A";
                         EvWarning "A" (RuntimeError "A is not available");
                         EvConstruct 1 "Kq"; EvQuery 1 "Kq"] |}
           eq_refl).
Defined.

(** ** The log of a run *)


Lemma log_records_discard i name b e :
  log_records (discard_events i name b e) = [LogWarning name].
Proof. destruct b; reflexivity. Qed.



(** ** A candidate that keeps the base [get_idle_time] *)

(** A class that does not override [get_idle_time] is never the monitor
    [get_monitor] returns. If its constructor returns, or raises an
    instance of [Exception], one warning is logged and the loop goes on
    behind it in the world its constructor left (the probe query having
    raised [NotImplementedError]); if its constructor raises anything
    else, that exception ends the run. *)
Theorem base_get_idle_time_is_never_selected kwargs i c rest p :
  cls_get_idle_time c = IdleMonitor.get_idle_time ->
  let goes_on w1 :=
    exists evs,
      IdleMonitor.get_monitor_from i (c :: rest) kwargs p
      = IdleMonitor.get_monitor_from (S i) rest kwargs
          {| world := w1; events := events p ++ evs |}
      /\ log_records evs = [LogWarning (cls_name c)] in
  match cls_init c kwargs (world p) with
  | (Ok _, w1) => goes_on w1
  | (Raise e, w1) =>
      if is_Exception e then goes_on w1
      else IdleMonitor.get_monitor_from i (c :: rest) kwargs p
           = (Raise e, {| world := w1; events := events p ++ [EvConstruct i (cls_name c)] |})
  end.
Proof.
  intros Hbase goes_on. subst goes_on.
  destruct (cls_init c kwargs (world p)) as [[m | e] w1] eqn:Hinit.
  - assert (Hq : cls_get_idle_time c m w1 = (Raise NotImplementedError, w1))
      by (by rewrite Hbase).
    eexists. split; [apply (step_probe_fails _ _ _ _ _ _ _ _ _ Hinit Hq eq_refl) |].
    apply log_records_discard.
  - destruct (is_Exception e) eqn:He.
    + eexists. split; [apply (step_construct_fails _ _ _ _ _ _ _ Hinit He) |].
      apply log_records_discard.
    + apply (step_construct_escapes _ _ _ _ _ _ _ Hinit He).
Qed.

Lemma base_get_idle_time_is_never_selected_witness :
  exists evs,
    IdleMonitor.get_monitor_from 0 (IdleMonitor.cls :: [Scenario.C]) ∅ (start bare_world)
    = IdleMonitor.get_monitor_from 1 [Scenario.C] ∅
        {| world := bare_world; events := events (start bare_world) ++ evs |}
    /\ log_records evs = [LogWarning (cls_name IdleMonitor.cls)].
Proof.
  exact (base_get_idle_time_is_never_selected ∅ 0%nat IdleMonitor.cls [Scenario.C]
           (start bare_world) eq_refl).
Defined.

(** ** Keyword arguments and the threshold *)

Lemma module_registry win32api_importable :
  registry (module_body win32api_importable)
  = (if win32api_importable then [WindowsIdleMonitor.cls] else [])
      ++ [GnomeWaylandIdleMonitor.cls; X11IdleMonitor.cls].
Proof. destruct win32api_importable; reflexivity. Qed.

Lemma unexpected_keyword_not_empty (kwargs : Kwargs) k v :
  kwargs !! k = Some v -> k <> "idle_threshold" -> delete "idle_threshold" kwargs <> ∅.
Proof.
  intros Hk Hne Hempty.
  assert (H : delete "idle_threshold" kwargs !! k = Some v)
    by (by rewrite lookup_delete_ne).
  rewrite Hempty, lookup_empty in H. discriminate.
Qed.

Lemma base_init_unexpected_keyword kwargs k v w :
  kwargs !! k = Some v -> k <> "idle_threshold" ->
  IdleMonitor.init kwargs w
  = (Raise (TypeError "__init__() got an unexpected keyword argument"), w).
Proof.
  intros Hk Hne. unfold IdleMonitor.init.
  destruct (decide (delete "idle_threshold" kwargs = ∅)) as [Hempty | _]; [| reflexivity].
  by destruct (unexpected_keyword_not_empty kwargs k v Hk Hne).
Qed.

Lemma base_init_ok kwargs w self w' :
  IdleMonitor.init kwargs w = (Ok self, w') ->
  self = {| idle_threshold := default 120 (kwargs !! "idle_threshold"); attrs := NoAttrs |}
  /\ w' = w.
Proof.
  unfold IdleMonitor.init, ret, raise.
  destruct (decide (delete "idle_threshold" kwargs = ∅)); [| discriminate].
  by intros [= <- <-].
Qed.

(** What a successful [__init__] of the display-extension backend has
    done: both libraries were found and loaded, a display was opened if a
    server answered, the root window was read, and one query buffer was
    allocated, which is all the machine has changed by. *)
Theorem x11_init_ok kwargs w self w' :
  X11IdleMonitor.init kwargs w = (Ok self, w') ->
  exists lib_x11 lib_xss,
    library_paths w !! "X11" = Some lib_x11 /\ (lib_x11 ∉ unloadable w)
    /\ library_paths w !! "Xss" = Some lib_xss /\ (lib_xss ∉ unloadable w)
    /\ idle_threshold self = default 120 (kwargs !! "idle_threshold")
    /\ attrs self
       = X11Attrs (if x_server_up w then Some (length (displays w)) else None)
           (ctypes.c_uint32 (x_root w)) lib_xss (length (xss_buffers w))
    /\ w' = set_xss_buffers (fun bs => bs ++ [ctypes.c_ulong (fresh_memory w)])
              (if x_server_up w then set_displays (fun ds => ds ++ [true]) w else w).
Proof.
  unfold X11IdleMonitor.init, IdleMonitor.init, X11IdleMonitor.load_lib,
    ctypes.find_library, ctypes.LoadLibrary, ctypes.XOpenDisplay, ctypes.XDefaultRootWindow,
    ctypes.XScreenSaverAllocInfo, bind, gets, ret, raise.
  destruct (decide (delete "idle_threshold" kwargs = ∅)); [| discriminate].
  destruct (library_paths w !! "X11") as [p11 |]; [| discriminate].
  destruct (decide (p11 ∈ unloadable w)) as [| H11]; [discriminate |].
  destruct (x_server_up w); simpl.
  - destruct (library_paths w !! "Xss") as [pss |]; [| discriminate].
    destruct (decide (pss ∈ _)) as [| Hss]; [discriminate |].
    intros [= <- <-]. exists p11, pss. repeat split; assumption.
  - destruct (library_paths w !! "Xss") as [pss |]; [| discriminate].
    destruct (decide (pss ∈ _)) as [| Hss]; [discriminate |].
    intros [= <- <-]. exists p11, pss. repeat split; assumption.
Qed.

Lemma x11_init_ok_witness :
  let w := x11_desktop 7000 in
  let self := {| idle_threshold := 120;
                 attrs := X11Attrs (Some 0%nat) 1980 "libXss.so.1" 0 |} in
  exists lib_x11 lib_xss,
    library_paths w !! "X11" = Some lib_x11 /\ (lib_x11 ∉ unloadable w)
    /\ library_paths w !! "Xss" = Some lib_xss /\ (lib_xss ∉ unloadable w)
    /\ idle_threshold self = default 120 ((∅ : Kwargs) !! "idle_threshold")
    /\ attrs self
       = X11Attrs (if x_server_up w then Some (length (displays w)) else None)
           (ctypes.c_uint32 (x_root w)) lib_xss (length (xss_buffers w))
    /\ set_xss_buffers (fun _ => [0]) (set_displays (fun _ => [true]) w)
       = set_xss_buffers (fun bs => bs ++ [ctypes.c_ulong (fresh_memory w)])
           (if x_server_up w then set_displays (fun ds => ds ++ [true]) w else w).
Proof.
  exact (x11_init_ok ∅ (x11_desktop 7000)
           {| idle_threshold := 120; attrs := X11Attrs (Some 0%nat) 1980 "libXss.so.1" 0 |}
           (set_xss_buffers (fun _ => [0]) (set_displays (fun _ => [true]) (x11_desktop 7000)))
           eq_refl).
Defined.

Lemma module_class_init_threshold win32api_importable c kwargs w self w' :
  In c (registry (module_body win32api_importable)) ->
  cls_init c kwargs w = (Ok self, w') ->
  idle_threshold self = default 120 (kwargs !! "idle_threshold").
Proof.
  rewrite module_registry. intros Hin Hinit.
  assert (Hc : c = WindowsIdleMonitor.cls \/ c = GnomeWaylandIdleMonitor.cls
               \/ c = X11IdleMonitor.cls).
  { destruct win32api_importable; simpl in Hin; intuition. }
  destruct Hc as [-> | [-> | ->]]; simpl in Hinit.
  - by apply base_init_ok in Hinit as [-> _].
  - revert Hinit. unfold GnomeWaylandIdleMonitor.init, IdleMonitor.init, bind, gets, ret,
      raise, jeepney.connect_and_authenticate.
    destruct (decide (delete "idle_threshold" kwargs = ∅)); [| discriminate].
    destruct (negb _); [discriminate |].
    destruct (session_bus_down w); [discriminate |].
    by intros [= <- _].
  - revert Hinit. unfold X11IdleMonitor.init, IdleMonitor.init, bind, ret, raise.
    destruct (decide (delete "idle_threshold" kwargs = ∅)); [| discriminate].
    destruct (X11IdleMonitor.load_lib "X11" w) as [[lib_x11 | ?] w1]; [| discriminate].
    destruct (ctypes.XOpenDisplay w1) as [[display | ?] w2]; [| discriminate].
    destruct (ctypes.XDefaultRootWindow display w2) as [[root_window | ?] w3];
      [| discriminate].
    destruct (X11IdleMonitor.load_lib "Xss" w3) as [[lib_xss | ?] w4]; [| discriminate].
    destruct (ctypes.XScreenSaverAllocInfo w4) as [[xss_info | ?] w5]; [| discriminate].
    by intros [= <- _].
Qed.

(** The monitor [get_monitor] returns from the module's own registry
    carries the threshold it was called with, and 120 when it was called
    without one, whichever backend won. *)
Theorem get_monitor_threshold win32api_importable kwargs p m p' :
  IdleMonitor.get_monitor (registry (module_body win32api_importable)) kwargs p = (Ok m, p') ->
  idle_threshold m = default 120 (kwargs !! "idle_threshold").
Proof.
  intros Hrun. apply get_monitor_from_ok_inv in Hrun
    as (pre & c & post & flags & w1 & w2 & t & Hsplit & _ & Hinit & _).
  apply (module_class_init_threshold win32api_importable c kwargs w1 m w2); [| exact Hinit].
  rewrite Hsplit. apply in_or_app. right. by left.
Qed.

Lemma get_monitor_threshold_witness :
  idle_threshold {| idle_threshold := 45;
                    attrs := X11Attrs (Some 0%nat) 1980 "libXss.so.1" 0 |}
  = default 120 (({[ "idle_threshold" := 45 ]} : Kwargs) !! "idle_threshold").
Proof.
  exact (get_monitor_threshold false {[ "idle_threshold" := 45 ]} (start (x11_desktop 7000))
           {| idle_threshold := 45; attrs := X11Attrs (Some 0%nat) 1980 "libXss.so.1" 0 |}
           (snd (IdleMonitor.get_monitor (registry (module_body false))
                   {[ "idle_threshold" := 45 ]} (start (x11_desktop 7000))))
           eq_refl).
Defined.

Lemma module_class_init_unexpected_keyword win32api_importable c kwargs k v w :
  In c (registry (module_body win32api_importable)) ->
  kwargs !! k = Some v -> k <> "idle_threshold" ->
  discarded kwargs c w w false.
Proof.
  rewrite module_registry. intros Hin Hk Hne.
  pose proof (base_init_unexpected_keyword kwargs k v w Hk Hne) as Hbase.
  assert (Hc : c = WindowsIdleMonitor.cls \/ c = GnomeWaylandIdleMonitor.cls
               \/ c = X11IdleMonitor.cls).
  { destruct win32api_importable; simpl in Hin; intuition. }
  apply (discarded_construct kwargs c w w
           (TypeError "__init__() got an unexpected keyword argument"));
    [| reflexivity].
  destruct Hc as [-> | [-> | ->]]; simpl.
  - exact Hbase.
  - unfold GnomeWaylandIdleMonitor.init, bind. by rewrite Hbase.
  - unfold X11IdleMonitor.init, bind. by rewrite Hbase.
Qed.

Lemma all_discarded_in_place kwargs subs w :
  (forall c, In c subs -> discarded kwargs c w w false) ->
  all_discarded kwargs subs w w (map (fun _ => false) subs).
Proof.
  induction subs as [| c rest IH]; intros Hall; simpl; [constructor |].
  econstructor; [apply Hall; by left |]. apply IH. intros c' Hin. apply Hall. by right.
Qed.

(** A keyword other than [idle_threshold] makes [get_monitor] fail on
    every machine: each backend's constructor raises [TypeError] before
    it looks at anything, so [get_monitor] raises its [RuntimeError] and
    the machine is left as it was. *)
Theorem get_monitor_unexpected_keyword win32api_importable kwargs k v w :
  kwargs !! k = Some v -> k <> "idle_threshold" ->
  exists evs,
    IdleMonitor.get_monitor (registry (module_body win32api_importable)) kwargs (start w)
    = (Raise (RuntimeError "Could not find a working monitor."),
       {| world := w; events := evs |})
    /\ forall j, count_queries j evs = 0%nat.
Proof.
  intros Hk Hne.
  set (subs := registry (module_body win32api_importable)).
  assert (Hall : all_discarded kwargs subs w w (map (fun _ => false) subs)).
  { apply all_discarded_in_place. intros c Hin.
    by apply (module_class_init_unexpected_keyword win32api_importable c kwargs k v). }
  destruct (run_discarded kwargs subs w w _ Hall 0%nat [] []) as (evs & Hrun & _ & Hqry).
  exists evs. split.
  - unfold IdleMonitor.get_monitor, start. rewrite app_nil_r in Hrun. by rewrite Hrun.
  - intros j. rewrite Hqry. cbn [Nat.leb andb].
    destruct (nth_in_or_default (j - 0) (map (fun _ : Class => false) subs) false) as [Hin | ->];
      [| reflexivity].
    apply in_map_iff in Hin as (c & <- & _). reflexivity.
Qed.

Lemma get_monitor_unexpected_keyword_witness :
  exists evs,
    IdleMonitor.get_monitor (registry (module_body true)) {[ "threshold" := 5 ]}
      (start (x11_desktop 7000))
    = (Raise (RuntimeError "Could not find a working monitor."),
       {| world := x11_desktop 7000; events := evs |})
    /\ forall j, count_queries j evs = 0%nat.
Proof.
  exact (get_monitor_unexpected_keyword true {[ "threshold" := 5 ]} "threshold" 5
           (x11_desktop 7000) eq_refl ltac:(discriminate)).
Defined.

(** ** The session-bus backend *)

Lemma prefix_app needle post : String.prefix needle (needle +:+ post) = true.
Proof.
  induction needle as [| a needle IH]; simpl; [by destruct post |].
  destruct (Ascii.ascii_dec a a); [exact IH | congruence].
Qed.

Lemma prefix_split needle hay :
  String.prefix needle hay = true -> exists post, hay = needle +:+ post.
Proof.
  revert hay. induction needle as [| a needle IH]; intros hay H.
  - by exists hay.
  - destruct hay as [| b hay]; simpl in H; [discriminate |].
    destruct (Ascii.ascii_dec a b) as [-> |]; [| discriminate].
    destruct (IH hay H) as [post ->]. by exists post.
Qed.

(** [str_contains] is Python's [in] on strings: it holds exactly when
    the needle occurs somewhere in the haystack. *)
Lemma str_contains_spec needle hay :
  str_contains needle hay = true <-> exists pre post, hay = pre +:+ needle +:+ post.
Proof.
  split.
  - induction hay as [| a hay IH]; cbn [str_contains].
    + intros H. apply prefix_split in H as [post ->]. by exists "", post.
    + intros H. apply orb_true_iff in H as [H | H].
      * apply prefix_split in H as [post ->]. by exists "", post.
      * destruct (IH H) as (pre & post & ->). by exists (String a pre), post.
  - intros (pre & post & ->). induction pre as [| a pre IH].
    + change ("" +:+ needle +:+ post) with (needle +:+ post).
      pose proof (prefix_app needle post) as H.
      destruct (needle +:+ post) eqn:E; cbn [str_contains]; [exact H |].
      by rewrite H.
    + change (String a pre +:+ needle +:+ post) with (String a (pre +:+ needle +:+ post)).
      cbn [str_contains]. by rewrite IH, orb_true_r.
Qed.

(** In a session whose desktop identifier has [GNOME] anywhere in it and
    whose bus accepts connections, the constructor succeeds: it opens
    exactly one connection, the newest one, and stores it with the
    [GetIdletime] call and the threshold. *)
Theorem gnome_init_in_gnome_session kwargs w pre post :
  delete "idle_threshold" kwargs = ∅ ->
  environ w !! "XDG_CURRENT_DESKTOP" = Some (pre +:+ "GNOME" +:+ post) ->
  session_bus_down w = None ->
  GnomeWaylandIdleMonitor.init kwargs w
  = (Ok {| idle_threshold := default 120 (kwargs !! "idle_threshold");
           attrs := GnomeAttrs (length (connections w)) GetIdletime_call |},
     set_connections (fun cs => cs ++ [true]) w).
Proof.
  intros Hkw Henv Hbus.
  assert (Hgnome : str_contains "GNOME" (default "" (environ w !! "XDG_CURRENT_DESKTOP"))
                   = true)
    by (rewrite Henv; apply str_contains_spec; eauto).
  unfold GnomeWaylandIdleMonitor.init, IdleMonitor.init, bind, gets, ret, raise,
    jeepney.connect_and_authenticate.
  destruct (decide (delete "idle_threshold" kwargs = ∅)); [| contradiction].
  rewrite Hgnome. cbn [negb]. rewrite Hbus. reflexivity.
Qed.

Lemma gnome_init_in_gnome_session_witness :
  GnomeWaylandIdleMonitor.init ∅ (gnome_session (MethodReturn [7000]))
  = (Ok {| idle_threshold := default 120 ((∅ : Kwargs) !! "idle_threshold");
           attrs := GnomeAttrs (length (connections (gnome_session (MethodReturn [7000]))))
                      GetIdletime_call |},
     set_connections (fun cs => cs ++ [true]) (gnome_session (MethodReturn [7000]))).
Proof.
  exact (gnome_init_in_gnome_session ∅ (gnome_session (MethodReturn [7000])) "ubuntu:" ""
           eq_refl eq_refl eq_refl).
Defined.

(** When the session bus cannot be reached the constructor passes on the
    exception of the connection attempt, and no connection is recorded. *)
Theorem gnome_init_bus_unreachable kwargs w e :
  delete "idle_threshold" kwargs = ∅ ->
  str_contains "GNOME" (default "" (environ w !! "XDG_CURRENT_DESKTOP")) = true ->
  session_bus_down w = Some e ->
  GnomeWaylandIdleMonitor.init kwargs w = (Raise e, w).
Proof.
  intros Hkw Hgnome Hbus.
  unfold GnomeWaylandIdleMonitor.init, IdleMonitor.init, bind, gets, ret, raise,
    jeepney.connect_and_authenticate.
  destruct (decide (delete "idle_threshold" kwargs = ∅)); [| contradiction].
  rewrite Hgnome. cbn [negb]. rewrite Hbus. reflexivity.
Qed.

(** [get_idle_time] returns a value only when its connection is open and
    the service replied with a non-empty body; the value is the first
    element over 1000, and the machine is left untouched, the connection
    still open for the next query. *)
Theorem gnome_query_ok_inv self w t w' :
  GnomeWaylandIdleMonitor.get_idle_time self w = (Ok t, w') ->
  w' = w
  /\ exists connection message idle_time rest,
       attrs self = GnomeAttrs connection message
       /\ connection_open connection w = true
       /\ bus_answer w message = MethodReturn (idle_time :: rest)
       /\ int_truediv idle_time 1000 = Ok t.
Proof.
  unfold GnomeWaylandIdleMonitor.get_idle_time.
  destruct (attrs self) as [| connection message |]; try discriminate.
  unfold bind, jeepney.send_and_get_reply, jeepney.close, modify, raise.
  destruct (connection_open connection w) eqn:Hopen; [| discriminate].
  destruct (bus_answer w message) as [[| idle_time rest] | name | e] eqn:Hans.
  - discriminate.
  - destruct (int_truediv idle_time 1000) as [q | e] eqn:Hdiv.
    + intros [= <- <-]. split; [reflexivity |]. by exists connection, message, idle_time, rest.
    + destruct e; try discriminate. destruct (String.eqb _ _); discriminate.
  - destruct (String.eqb _ _); discriminate.
  - destruct e; try discriminate. destruct (String.eqb _ _); discriminate.
Qed.

Lemma gnome_query_ok_inv_witness :
  let w := set_connections (fun _ => [true]) (gnome_session (MethodReturn [50000])) in
  w = w
  /\ exists connection message idle_time rest,
       attrs {| idle_threshold := 120; attrs := GnomeAttrs 0 GetIdletime_call |}
       = GnomeAttrs connection message
       /\ connection_open connection w = true
       /\ bus_answer w message = MethodReturn (idle_time :: rest)
       /\ int_truediv idle_time 1000 = Ok Scenario.seconds_50.
Proof.
  exact (gnome_query_ok_inv {| idle_threshold := 120; attrs := GnomeAttrs 0 GetIdletime_call |}
           (set_connections (fun _ => [true]) (gnome_session (MethodReturn [50000])))
           Scenario.seconds_50 _ eq_refl).
Defined.

Lemma gnome_init_bus_unreachable_witness :
  GnomeWaylandIdleMonitor.init ∅ gnome_without_bus
  = (Raise (OSError "Connection refused"), gnome_without_bus).
Proof.
  exact (gnome_init_bus_unreachable ∅ gnome_without_bus (OSError "Connection refused")
           eq_refl eq_refl eq_refl).
Defined.

(** [get_idle_time] changes the machine in one case only: the call on the
    bus raised [DBusErrorResponse], and the change is the closing of the
    monitor's own connection. Any other failure (a transport error, an
    empty reply, a closed connection) leaves every connection as it was. *)
Theorem gnome_query_closes_only_on_bus_error self w r w' :
  GnomeWaylandIdleMonitor.get_idle_time self w = (r, w') ->
  w' <> w ->
  exists connection message name,
    attrs self = GnomeAttrs connection message
    /\ jeepney.send_and_get_reply connection message w = (Raise (DBusErrorResponse name), w)
    /\ w' = set_connections (fun cs => <[connection := false]> cs) w.
Proof.
  unfold GnomeWaylandIdleMonitor.get_idle_time.
  destruct (attrs self) as [| connection message |];
    try (unfold raise; intros [= <- <-] Hne; by destruct Hne).
  unfold bind, jeepney.send_and_get_reply, jeepney.close, modify, raise.
  destruct (connection_open connection w) eqn:Hopen;
    [| intros [= <- <-] Hne; by destruct Hne].
  destruct (bus_answer w message) as [[| idle_time rest] | name | e] eqn:Hans.
  - intros [= <- <-] Hne. by destruct Hne.
  - destruct (int_truediv idle_time 1000) as [q | e] eqn:Hdiv;
      [intros [= <- <-] Hne; by destruct Hne |].
    unfold int_truediv in Hdiv. simpl Z.eqb in Hdiv. cbv iota in Hdiv.
    destruct (SFdiv prec emax _ _); try discriminate;
      injection Hdiv as <-; intros [= <- <-] Hne; by destruct Hne.
  - intros Hrun _. exists connection, message, name.
    split; [reflexivity |]. split; [by rewrite Hopen, Hans |].
    destruct (String.eqb name ServiceUnknown); by injection Hrun as _ <-.
  - destruct e as [| | | | | | | | name | | | |];
      try (intros [= <- <-] Hne; by destruct Hne).
    intros Hrun _. exists connection, message, name.
    split; [reflexivity |]. split; [by rewrite Hopen, Hans |].
    destruct (String.eqb name ServiceUnknown); by injection Hrun as _ <-.
Qed.

Lemma gnome_query_closes_only_on_bus_error_witness :
  let w := set_connections (fun _ => [true]) (gnome_session (ErrorReply ServiceUnknown)) in
  exists connection message name,
    attrs {| idle_threshold := 120; attrs := GnomeAttrs 0 GetIdletime_call |}
    = GnomeAttrs connection message
    /\ jeepney.send_and_get_reply connection message w = (Raise (DBusErrorResponse name), w)
    /\ set_connections (fun _ => [false]) (gnome_session (ErrorReply ServiceUnknown))
       = set_connections (fun cs => <[connection := false]> cs) w.
Proof.
  exact (gnome_query_closes_only_on_bus_error
           {| idle_threshold := 120; attrs := GnomeAttrs 0 GetIdletime_call |}
           (set_connections (fun _ => [true]) (gnome_session (ErrorReply ServiceUnknown)))
           _ (set_connections (fun _ => [false]) (gnome_session (ErrorReply ServiceUnknown)))
           eq_refl ltac:(discriminate)).
Defined.

(** [get_idle_time] never reconnects. Once the monitor's connection is
    closed, as it is after a bus error, every further query fails on the
    closed connection and the connection stays closed. *)
Theorem gnome_query_after_close_fails self connection message w :
  attrs self = GnomeAttrs connection message ->
  connection_open connection w = false ->
  exists e,
    GnomeWaylandIdleMonitor.get_idle_time self w = (Raise e, w)
    /\ IdleMonitor.is_idle GnomeWaylandIdleMonitor.cls self w = (Raise e, w).
Proof.
  intros Hattrs Hclosed.
  assert (Hq : GnomeWaylandIdleMonitor.get_idle_time self w
               = (Raise (OSError "Bad file descriptor"), w)).
  { unfold GnomeWaylandIdleMonitor.get_idle_time. rewrite Hattrs.
    unfold bind, jeepney.send_and_get_reply. by rewrite Hclosed. }
  eexists. split; [exact Hq |].
  unfold IdleMonitor.is_idle, bind. simpl. by rewrite Hq.
Qed.

Lemma gnome_query_after_close_fails_witness :
  let w := set_connections (fun _ => [false]) (gnome_session (MethodReturn [7000])) in
  let self := {| idle_threshold := 120; attrs := GnomeAttrs 0 GetIdletime_call |} in
  exists e,
    GnomeWaylandIdleMonitor.get_idle_time self w = (Raise e, w)
    /\ IdleMonitor.is_idle GnomeWaylandIdleMonitor.cls self w = (Raise e, w).
Proof.
  exact (gnome_query_after_close_fails
           {| idle_threshold := 120; attrs := GnomeAttrs 0 GetIdletime_call |}
           0%nat GetIdletime_call
           (set_connections (fun _ => [false]) (gnome_session (MethodReturn [7000])))
           eq_refl eq_refl).
Defined.

(** ** The display-extension backend *)

(** Without libX11 the constructor fails at its first step, naming the
    library, with the machine untouched. *)
Theorem x11_init_without_libX11 kwargs w :
  delete "idle_threshold" kwargs = ∅ ->
  library_paths w !! "X11" = None ->
  X11IdleMonitor.init kwargs w = (Raise (OSError "Could not find library `X11`"), w).
Proof.
  intros Hkw Hlib.
  unfold X11IdleMonitor.init, IdleMonitor.init, X11IdleMonitor.load_lib,
    ctypes.find_library, bind, gets, ret, raise.
  destruct (decide (delete "idle_threshold" kwargs = ∅)); [| contradiction].
  by rewrite Hlib.
Qed.

Lemma x11_init_without_libX11_witness :
  X11IdleMonitor.init ∅ bare_world
  = (Raise (OSError "Could not find library `X11`"), bare_world).
Proof. exact (x11_init_without_libX11 ∅ bare_world eq_refl eq_refl). Defined.

(** With libX11 loaded and libXss not found the constructor fails naming
    libXss, but only after it has opened the display: where a server
    answers, the machine is left with one more open display than before,
    and nothing in the module closes it. *)
Theorem x11_init_without_libXss kwargs w lib_x11 :
  delete "idle_threshold" kwargs = ∅ ->
  library_paths w !! "X11" = Some lib_x11 ->
  lib_x11 ∉ unloadable w ->
  library_paths w !! "Xss" = None ->
  x_server_up w = true ->
  exists w',
    X11IdleMonitor.init kwargs w = (Raise (OSError "Could not find library `Xss`"), w')
    /\ displays w' = displays w ++ [true]
    /\ open_count (displays w') = S (open_count (displays w))
    /\ connections w' = connections w /\ xss_buffers w' = xss_buffers w.
Proof.
  intros Hkw H11 Hload Hss Hup.
  unfold X11IdleMonitor.init, IdleMonitor.init, X11IdleMonitor.load_lib,
    ctypes.find_library, ctypes.LoadLibrary, ctypes.XOpenDisplay, ctypes.XDefaultRootWindow,
    bind, gets, ret, raise.
  destruct (decide (delete "idle_threshold" kwargs = ∅)); [| contradiction].
  rewrite H11. destruct (decide (lib_x11 ∈ unloadable w)); [contradiction |].
  rewrite Hup. simpl. rewrite Hss.
  eexists. split; [reflexivity |]. simpl. repeat split.
  rewrite open_count_app. unfold open_count at 2. simpl. lia.
Qed.

Lemma x11_init_without_libXss_witness :
  exists w',
    X11IdleMonitor.init ∅ x11_without_xss
    = (Raise (OSError "Could not find library `Xss`"), w')
    /\ displays w' = displays x11_without_xss ++ [true]
    /\ open_count (displays w') = S (open_count (displays x11_without_xss))
    /\ connections w' = connections x11_without_xss
    /\ xss_buffers w' = xss_buffers x11_without_xss.
Proof.
  exact (x11_init_without_libXss ∅ x11_without_xss "libX11.so.6"
           eq_refl eq_refl ltac:(vm_compute; set_solver) eq_refl eq_refl).
Defined.

(** On an open display of a server with the extension, [get_idle_time]
    returns the server's idle counter, as a [c_ulong], over 1000. It
    writes into the buffer the constructor allocated and allocates
    nothing: the machine holds what it held before. *)
Theorem x11_query_reads_server_counter self display root_window lib_xss xss_info w :
  attrs self = X11Attrs (Some display) root_window lib_xss xss_info ->
  display_open display w = true ->
  xss_present w = true ->
  (xss_info < length (xss_buffers w))%nat ->
  exists w',
    X11IdleMonitor.get_idle_time self w
    = (int_truediv (x_idle_ms w mod 2 ^ 64) 1000, w')
    /\ xss_buffers w' = <[xss_info := x_idle_ms w mod 2 ^ 64]> (xss_buffers w)
    /\ held w' = held w.
Proof.
  intros Hattrs Hopen Hxss Hinfo.
  unfold X11IdleMonitor.get_idle_time. rewrite Hattrs.
  unfold bind, ctypes.XScreenSaverQueryInfo, ctypes.contents_idle.
  rewrite Hopen, Hxss. simpl.
  rewrite list_lookup_insert_eq by exact Hinfo.
  eexists. split; [reflexivity |]. split; [reflexivity |].
  unfold held. simpl. by rewrite length_insert.
Qed.

Lemma x11_query_reads_server_counter_witness :
  let w := set_xss_buffers (fun _ => [0]) (set_displays (fun _ => [true]) (x11_desktop 7000)) in
  exists w',
    X11IdleMonitor.get_idle_time
      {| idle_threshold := 120; attrs := X11Attrs (Some 0%nat) 1980 "libXss.so.1" 0 |} w
    = (int_truediv (x_idle_ms w mod 2 ^ 64) 1000, w')
    /\ xss_buffers w' = <[0%nat := x_idle_ms w mod 2 ^ 64]> (xss_buffers w)
    /\ held w' = held w.
Proof.
  exact (x11_query_reads_server_counter
           {| idle_threshold := 120; attrs := X11Attrs (Some 0%nat) 1980 "libXss.so.1" 0 |}
           0%nat 1980 "libXss.so.1" 0%nat
           (set_xss_buffers (fun _ => [0]) (set_displays (fun _ => [true]) (x11_desktop 7000)))
           eq_refl eq_refl eq_refl ltac:(simpl; lia)).
Defined.

(** [get_idle_time] does not look at the status [XScreenSaverQueryInfo]
    returns. When the query fails (the server has no screen-saver
    extension, or the display is not open) nothing is raised: the result
    is whatever the buffer held before the call, over 1000, and the
    machine is unchanged. *)
Theorem x11_query_ignores_failed_status self display root_window lib_xss xss_info w v :
  attrs self = X11Attrs (Some display) root_window lib_xss xss_info ->
  display_open display w && xss_present w = false ->
  xss_buffers w !! xss_info = Some v ->
  X11IdleMonitor.get_idle_time self w = (int_truediv v 1000, w).
Proof.
  intros Hattrs Hfail Hbuf.
  unfold X11IdleMonitor.get_idle_time. rewrite Hattrs.
  unfold bind, ctypes.XScreenSaverQueryInfo, ctypes.contents_idle.
  by rewrite Hfail, Hbuf.
Qed.

Lemma x11_query_ignores_failed_status_witness :
  X11IdleMonitor.get_idle_time
    {| idle_threshold := 120; attrs := X11Attrs (Some 0%nat) 1980 "libXss.so.1" 0 |}
    (set_xss_buffers (fun _ => [300000])
       (set_displays (fun _ => [true]) (x11_without_extension 300000)))
  = (int_truediv 300000 1000,
     set_xss_buffers (fun _ => [300000])
       (set_displays (fun _ => [true]) (x11_without_extension 300000))).
Proof.
  exact (x11_query_ignores_failed_status
           {| idle_threshold := 120; attrs := X11Attrs (Some 0%nat) 1980 "libXss.so.1" 0 |}
           0%nat 1980 "libXss.so.1" 0%nat
           (set_xss_buffers (fun _ => [300000])
              (set_displays (fun _ => [true]) (x11_without_extension 300000)))
           300000 eq_refl eq_refl eq_refl).
Defined.

(** ** Idle times that are not negative *)

Lemma windows_idle_time_nonneg_witness :
  last_input_tick (windows_machine 5000 2000) <= tick_count (windows_machine 5000 2000)
  /\ exists f,
       WindowsIdleMonitor.get_idle_time {| idle_threshold := 120; attrs := NoAttrs |}
         (windows_machine 5000 2000)
       = (Ok f, windows_machine 5000 2000)
       /\ float_nonneg f = true.
Proof.
  split; [simpl; lia |]. eexists. split; [reflexivity |].
  exact (windows_idle_time_nonneg {| idle_threshold := 120; attrs := NoAttrs |}
           (windows_machine 5000 2000) _ (windows_machine 5000 2000)
           ltac:(simpl; lia) eq_refl).
Defined.

Lemma gnome_idle_time_nonneg_witness :
  let w := set_connections (fun _ => [true]) (gnome_session (MethodReturn [50000])) in
  uint64 50000
  /\ float_nonneg Scenario.seconds_50 = true.
Proof.
  split; [unfold uint64; lia |].
  exact (gnome_idle_time_nonneg
           {| idle_threshold := 120; attrs := GnomeAttrs 0 GetIdletime_call |}
           0%nat GetIdletime_call 50000 []
           (set_connections (fun _ => [true]) (gnome_session (MethodReturn [50000])))
           Scenario.seconds_50
           (set_connections (fun _ => [true]) (gnome_session (MethodReturn [50000])))
           eq_refl eq_refl ltac:(unfold uint64; lia) eq_refl).
Defined.

Lemma x11_idle_time_nonneg_witness :
  let w := set_xss_buffers (fun _ => [0]) (set_displays (fun _ => [true]) (x11_desktop 50000)) in
  Forall (fun v => 0 <= v) (xss_buffers w)
  /\ float_nonneg Scenario.seconds_50 = true.
Proof.
  assert (H : Forall (fun v => 0 <= v)
                (xss_buffers (set_xss_buffers (fun _ => [0])
                                (set_displays (fun _ => [true]) (x11_desktop 50000))))).
  { simpl. constructor; [lia | constructor]. }
  split; [exact H |].
  exact (x11_idle_time_nonneg
           {| idle_threshold := 120; attrs := X11Attrs (Some 0%nat) 1980 "libXss.so.1" 0 |}
           (set_xss_buffers (fun _ => [0]) (set_displays (fun _ => [true]) (x11_desktop 50000)))
           Scenario.seconds_50
           (set_xss_buffers (fun _ => [50000])
              (set_displays (fun _ => [true]) (x11_desktop 50000)))
           H eq_refl).
Defined.

(** ** The registry, statement by statement *)

Lemma class_stmt_extends stmt st :
  registry_ok st ->
  exists more_classes more_subclasses,
    classes (snd (class_stmt stmt st)) = classes st ++ more_classes
    /\ subclasses (snd (class_stmt stmt st)) = subclasses st ++ more_subclasses.
Proof.
  intros Hok. destruct (class_stmt_step stmt st Hok) as [[-> | (Hcs & _ & Hl)] _].
  - exists [], []. by rewrite !app_nil_r.
  - eexists _, _. split; [exact Hcs |]. unfold subclasses at 1. by rewrite Hl.
Qed.

Lemma class_stmts_extend stmts : forall st,
  registry_ok st ->
  exists more_classes more_subclasses,
    classes (snd (class_stmts stmts st)) = classes st ++ more_classes
    /\ subclasses (snd (class_stmts stmts st)) = subclasses st ++ more_subclasses.
Proof.
  induction stmts as [| stmt rest IH]; intros st Hok.
  - exists [], []. simpl. by rewrite !app_nil_r.
  - simpl. unfold bind.
    destruct (class_stmt_extends stmt st Hok) as (mc & ms & Hc & Hs).
    pose proof (class_stmt_ok stmt st Hok) as Hok1.
    destruct (class_stmt stmt st) as [[[] | e] st1]; simpl in Hc, Hs, Hok1.
    + destruct (IH st1 Hok1) as (mc' & ms' & Hc' & Hs').
      exists (mc ++ mc'), (ms ++ ms'). by rewrite Hc', Hs', Hc, Hs, !app_assoc.
    + simpl. by exists mc, ms.
Qed.

Lemma registered_ids_defined st id :
  registry_ok st -> In id (subclasses st) -> (id < length (classes st))%nat.
Proof.
  intros Hok Hin. rewrite (subclasses_ok st Hok) in Hin.
  apply List.filter_In in Hin as [Hin _]. apply in_seq in Hin. lia.
Qed.

Lemma omap_lookup_app (cs more : list ClassObj) (ids : list nat) :
  (forall id, In id ids -> (id < length cs)%nat) ->
  omap (fun id => co_class <$> (cs ++ more) !! id) ids
  = omap (fun id => co_class <$> cs !! id) ids.
Proof.
  induction ids as [| id ids IH]; intros Hids; [reflexivity |].
  unfold omap in *. simpl. rewrite lookup_app_l by (apply Hids; by left).
  rewrite IH by (intros id' Hin; apply Hids; by right). reflexivity.
Qed.

(** Registration only ever appends. Whatever class statements run later,
    the candidates registered so far stay in the registry, in the same
    order and ahead of every later one: nothing is removed, replaced or
    reordered. *)
Theorem registry_only_grows stmts1 stmts2 :
  let st1 := snd (class_stmts stmts1 class_IdleMonitor) in
  let st2 := snd (class_stmts stmts2 st1) in
  exists more_ids more_candidates,
    subclasses st2 = subclasses st1 ++ more_ids
    /\ registry st2 = registry st1 ++ more_candidates.
Proof.
  intros st1 st2.
  assert (Hok : registry_ok st1) by (apply class_stmts_ok, class_IdleMonitor_ok).
  destruct (class_stmts_extend stmts2 st1 Hok) as (mc & ms & Hc & Hs). fold st2 in Hc, Hs.
  exists ms. eexists. split; [exact Hs |].
  unfold registry. rewrite Hs, Hc, omap_app. f_equal.
  apply omap_lookup_app. intros id Hin. by apply registered_ids_defined.
Qed.

(** No class is registered twice, and every entry of the registry is a
    class that was defined: [get_monitor] meets each registered class
    once, at the position of its registration. *)
Theorem registry_has_no_duplicates stmts :
  let st := snd (class_stmts stmts class_IdleMonitor) in
  List.NoDup (subclasses st)
  /\ length (registry st) = length (subclasses st)
  /\ forall i id, subclasses st !! i = Some id ->
       exists co, classes st !! id = Some co /\ registry st !! i = Some (co_class co).
Proof.
  intros st.
  assert (Hok : registry_ok st) by (apply class_stmts_ok, class_IdleMonitor_ok).
  assert (Hdef : forall ids, (forall id, In id ids -> (id < length (classes st))%nat) ->
            length (omap (fun id => co_class <$> classes st !! id) ids) = length ids
            /\ forall i id, ids !! i = Some id ->
                 exists co, classes st !! id = Some co
                            /\ omap (fun id => co_class <$> classes st !! id) ids !! i
                               = Some (co_class co)).
  { induction ids as [| id0 ids IH]; intros Hids.
    { split; [reflexivity |]. intros i id H. by rewrite lookup_nil in H. }
    destruct (lookup_lt_is_Some_2 (classes st) id0 (Hids id0 (or_introl eq_refl))) as [co Hco].
    destruct IH as [IHlen IHlook]; [intros id' Hin; apply Hids; by right |].
    unfold omap in *. simpl. rewrite Hco. simpl. split; [by rewrite IHlen |].
    intros [| i] id Hi; simpl in Hi.
    - injection Hi as <-. exists co. by split.
    - apply IHlook in Hi as (co' & Hco' & Hreg). exists co'. by split. }
  destruct (Hdef (subclasses st)) as [Hlen Hlook];
    [intros id Hin; by apply registered_ids_defined |].
  split; [| split; [exact Hlen | exact Hlook]].
  rewrite (subclasses_ok st Hok). apply List.NoDup_filter, seq_NoDup.
Qed.






(** ** Selection on a GNOME session *)

Lemma gnome_query_on_reply self connection message idle_time rest w :
  attrs self = GnomeAttrs connection message ->
  connection_open connection w = true ->
  bus_answer w message = MethodReturn (idle_time :: rest) ->
  GnomeWaylandIdleMonitor.get_idle_time self w = (int_truediv idle_time 1000, w).
Proof.
  intros Hattrs Hopen Hans. unfold GnomeWaylandIdleMonitor.get_idle_time.
  rewrite Hattrs. unfold bind, jeepney.send_and_get_reply. rewrite Hopen, Hans.
  unfold int_truediv. simpl Z.eqb. cbv iota.
  destruct (SFdiv prec emax _ _); reflexivity.
Qed.

Lemma connection_open_newest w :
  connection_open (length (connections w)) (set_connections (fun cs => cs ++ [true]) w)
  = true.
Proof.
  unfold connection_open. cbn [connections set_connections].
  by rewrite lookup_app_r, Nat.sub_diag by lia.
Qed.

Lemma gnome_session_run kwargs w pre post idle_time rest t :
  delete "idle_threshold" kwargs = ∅ ->
  environ w !! "XDG_CURRENT_DESKTOP" = Some (pre +:+ "GNOME" +:+ post) ->
  session_bus_down w = None ->
  bus_answer w GetIdletime_call = MethodReturn (idle_time :: rest) ->
  int_truediv idle_time 1000 = Ok t ->
  forall evs,
    IdleMonitor.get_monitor (registry (module_body false)) kwargs
      {| world := w; events := evs |}
    = (Ok {| idle_threshold := default 120 (kwargs !! "idle_threshold");
             attrs := GnomeAttrs (length (connections w)) GetIdletime_call |},
       {| world := set_connections (fun cs => cs ++ [true]) w;
          events := evs ++ [EvConstruct 0 "GnomeWaylandIdleMonitor";
                            EvQuery 0 "GnomeWaylandIdleMonitor";
                            EvInfo "GnomeWaylandIdleMonitor"] |}).
Proof.
  intros Hkw Henv Hbus Hans Hdiv evs.
  assert (Hgnome : str_contains "GNOME" (default "" (environ w !! "XDG_CURRENT_DESKTOP"))
                   = true)
    by (rewrite Henv; apply str_contains_spec; eauto).
  assert (Hinit : GnomeWaylandIdleMonitor.init kwargs w
                  = (Ok {| idle_threshold := default 120 (kwargs !! "idle_threshold");
                           attrs := GnomeAttrs (length (connections w)) GetIdletime_call |},
                     set_connections (fun cs => cs ++ [true]) w)).
  { unfold GnomeWaylandIdleMonitor.init, IdleMonitor.init, bind, gets, ret, raise,
      jeepney.connect_and_authenticate.
    destruct (decide (delete "idle_threshold" kwargs = ∅)); [| contradiction].
    rewrite Hgnome. cbn [negb]. by rewrite Hbus. }
  rewrite module_registry. unfold IdleMonitor.get_monitor. cbn [app].
  eapply (step_works kwargs 0%nat GnomeWaylandIdleMonitor.cls [X11IdleMonitor.cls]
            {| world := w; events := evs |}); [exact Hinit |].
  cbn [cls_get_idle_time GnomeWaylandIdleMonitor.cls].
  rewrite (gnome_query_on_reply _ (length (connections w)) GetIdletime_call idle_time rest);
    [by rewrite Hdiv | reflexivity | apply connection_open_newest | exact Hans].
Qed.

(** On a GNOME session whose idle-monitor service answers, the
    session-bus backend is the one selected, ahead of the display-extension
    backend whether or not that one would work: the display-extension
    backend is not even constructed, and all the run changes on the
    machine is the one connection it opens. *)
Theorem gnome_session_selects_session_bus_backend kwargs w pre post idle_time rest t :
  delete "idle_threshold" kwargs = ∅ ->
  environ w !! "XDG_CURRENT_DESKTOP" = Some (pre +:+ "GNOME" +:+ post) ->
  session_bus_down w = None ->
  bus_answer w GetIdletime_call = MethodReturn (idle_time :: rest) ->
  int_truediv idle_time 1000 = Ok t ->
  exists m p',
    IdleMonitor.get_monitor (registry (module_body false)) kwargs (start w) = (Ok m, p')
    /\ attrs m = GnomeAttrs (length (connections w)) GetIdletime_call
    /\ count_constructs 1 (events p') = 0%nat
    /\ world p' = set_connections (fun cs => cs ++ [true]) w
    /\ GnomeWaylandIdleMonitor.get_idle_time m (world p') = (Ok t, world p').
Proof.
  intros Hkw Henv Hbus Hans Hdiv.
  do 2 eexists. split.
  - apply (gnome_session_run kwargs w pre post idle_time rest t Hkw Henv Hbus Hans Hdiv).
  - cbn [attrs world events]. repeat split.
    rewrite (gnome_query_on_reply _ (length (connections w)) GetIdletime_call idle_time rest);
      [by rewrite Hdiv | reflexivity | apply connection_open_newest | exact Hans].
Qed.

Lemma gnome_session_selects_session_bus_backend_witness :
  exists m p',
    IdleMonitor.get_monitor (registry (module_body false)) ∅
      (start (gnome_session (MethodReturn [50000]))) = (Ok m, p')
    /\ attrs m = GnomeAttrs (length (connections (gnome_session (MethodReturn [50000]))))
                   GetIdletime_call
    /\ count_constructs 1 (events p') = 0%nat
    /\ world p' = set_connections (fun cs => cs ++ [true]) (gnome_session (MethodReturn [50000]))
    /\ GnomeWaylandIdleMonitor.get_idle_time m (world p') = (Ok Scenario.seconds_50, world p').
Proof.
  exact (gnome_session_selects_session_bus_backend ∅ (gnome_session (MethodReturn [50000]))
           "ubuntu:" "" 50000 [] Scenario.seconds_50 eq_refl eq_refl eq_refl eq_refl eq_refl).
Defined.

(** [get_monitor] keeps nothing from one call to the next. Called twice
    on such a session it constructs and probes anew: the second monitor
    has its own connection, and both connections are open afterwards. *)
Theorem get_monitor_twice_opens_two_connections kwargs w pre post idle_time rest t :
  delete "idle_threshold" kwargs = ∅ ->
  environ w !! "XDG_CURRENT_DESKTOP" = Some (pre +:+ "GNOME" +:+ post) ->
  session_bus_down w = None ->
  bus_answer w GetIdletime_call = MethodReturn (idle_time :: rest) ->
  int_truediv idle_time 1000 = Ok t ->
  exists m1 p1 m2 p2,
    IdleMonitor.get_monitor (registry (module_body false)) kwargs (start w) = (Ok m1, p1)
    /\ IdleMonitor.get_monitor (registry (module_body false)) kwargs p1 = (Ok m2, p2)
    /\ attrs m1 = GnomeAttrs (length (connections w)) GetIdletime_call
    /\ attrs m2 = GnomeAttrs (S (length (connections w))) GetIdletime_call
    /\ connections (world p2) = connections w ++ [true; true]
    /\ count_constructs 0 (events p2) = 2%nat.
Proof.
  intros Hkw Henv Hbus Hans Hdiv.
  pose proof (gnome_session_run kwargs w pre post idle_time rest t Hkw Henv Hbus Hans Hdiv [])
    as Hrun1.
  pose proof (gnome_session_run kwargs (set_connections (fun cs => cs ++ [true]) w)
                pre post idle_time rest t Hkw Henv Hbus Hans Hdiv) as Hrun2.
  do 4 eexists. split; [exact Hrun1 |]. split; [apply Hrun2 |].
  cbn [attrs world events connections set_connections].
  rewrite length_app, Nat.add_1_r, <- app_assoc. repeat split.
Qed.

Lemma get_monitor_twice_opens_two_connections_witness :
  exists m1 p1 m2 p2,
    IdleMonitor.get_monitor (registry (module_body false)) ∅
      (start (gnome_session (MethodReturn [50000]))) = (Ok m1, p1)
    /\ IdleMonitor.get_monitor (registry (module_body false)) ∅ p1 = (Ok m2, p2)
    /\ attrs m1 = GnomeAttrs (length (connections (gnome_session (MethodReturn [50000]))))
                    GetIdletime_call
    /\ attrs m2 = GnomeAttrs (S (length (connections (gnome_session (MethodReturn [50000])))))
                    GetIdletime_call
    /\ connections (world p2)
       = connections (gnome_session (MethodReturn [50000])) ++ [true; true]
    /\ count_constructs 0 (events p2) = 2%nat.
Proof.
  exact (get_monitor_twice_opens_two_connections ∅ (gnome_session (MethodReturn [50000]))
           "ubuntu:" "" 50000 [] Scenario.seconds_50 eq_refl eq_refl eq_refl eq_refl eq_refl).
Defined.
